(** * torch/nn/parameter.py: the [Parameter] tensor subclass

    A shallow embedding of [torch.nn.Parameter] over a small model of the
    Python object store.  Python objects live in a heap indexed by their
    identity ([id(x)]); attribute values, dictionary values and tuple
    components are references into that heap, so sharing and aliasing
    (a [tags] dictionary held by two Parameters, a storage viewed by two
    tensors, the [memo] dictionary threaded through a deep copy) are
    visible in the model.  Methods are computations in a state-and-exception
    monad over the heap. *)

From Stdlib Require Import ZArith String Ascii.
From stdpp Require Import gmap strings list fin_maps.

Open Scope string_scope.
Set Warnings "-register-all".

(** ** Python values and objects *)

(** The identity of an object, the number [id(x)] answers. *)
Definition addr := positive.

Definition py_id (a : addr) : Z := Z.pos a.

(** Dictionary keys: [memo] is keyed by the integers [id(x)], [tags] by
    strings. *)
Inductive key :=
  | KInt (z : Z)
  | KStr (s : string).

#[global] Instance key_eq_dec : EqDecision key.
Proof. solve_decision. Defined.

#[global] Instance key_countable : Countable key.
Proof.
  refine (inj_countable'
            (fun k => match k with KInt z => inl z | KStr s => inr s end)
            (fun x => match x with inl z => KInt z | inr s => KStr s end) _).
  by intros [].
Defined.

(** Functions that may stand in a reduction recipe. *)
Inductive builtin :=
  | fn_rebuild_parameter.

Inductive pyval :=
  | VNone
  | VBool (b : bool)
  | VInt (z : Z)
  | VStr (s : string)
  | VRef (a : addr)
  | VFun (f : builtin)
  | VTuple (vs : list pyval).

(** [type(x)] of a tensor object: [torch.Tensor], [Parameter], or a class
    deriving from [Parameter]. *)
Inductive cls :=
  | cls_Tensor
  | cls_Parameter
  | cls_Sub (name : string).

Inductive memory_format :=
  | contiguous_format
  | preserve_format.

(** A tensor object: a typed handle on a storage, with its layout, its
    gradient flag and its instance [__dict__]. *)
Record tensor_obj := mk_tensor {
  ob_type : cls;
  ob_storage : addr;
  ob_sizes : list nat;
  ob_strides : list nat;
  ob_requires_grad : bool;
  ob_dict : gmap string pyval
}.

Inductive object :=
  | OStorage (buf : list Z)
  | OTensor (t : tensor_obj)
  | ODict (d : gmap key pyval)
  | OOrderedDict (d : list (key * pyval)).

Abbreviation heap := (gmap addr object).

Inductive exn :=
  | TypeError
  | AttributeError
  | KeyError
  | IndexError
  | RuntimeError.

(** ** The monad of heap computations *)

Inductive result (A : Type) :=
  | Ok (a : A) (h : heap)
  | Raise (e : exn).
Arguments Ok {A} a h.
Arguments Raise {A} e.

Definition M (A : Type) : Type := heap -> result A.

Definition ret {A} (a : A) : M A := fun h => Ok a h.

Definition bind {A B} (m : M A) (f : A -> M B) : M B :=
  fun h => match m h with
           | Ok a h' => f a h'
           | Raise e => Raise e
           end.

Definition raise {A} (e : exn) : M A := fun _ => Raise e.

Notation "x <- m ;; k" := (bind m (fun x => k))
  (at level 100, m at next level, right associativity).
Notation "m ;;; k" := (bind m (fun _ => k))
  (at level 100, right associativity).

(** A new object gets an identity no live object has. *)
Definition alloc (o : object) : M addr :=
  fun h => let a := fresh (dom h) in Ok a (<[a := o]> h).

Definition get_tensor (a : addr) : M tensor_obj :=
  fun h => match h !! a with
           | Some (OTensor t) => Ok t h
           | _ => Raise TypeError
           end.

Definition put_tensor (a : addr) (t : tensor_obj) : M unit :=
  fun h => Ok tt (<[a := OTensor t]> h).

Definition get_storage (a : addr) : M (list Z) :=
  fun h => match h !! a with
           | Some (OStorage buf) => Ok buf h
           | _ => Raise TypeError
           end.

Definition get_dict (a : addr) : M (gmap key pyval) :=
  fun h => match h !! a with
           | Some (ODict d) => Ok d h
           | _ => Raise TypeError
           end.

(** [type(x)] *)
Definition py_type (a : addr) : M cls :=
  t <- get_tensor a ;; ret (ob_type t).

(** [x.name] and [x.name = v] on the instance dictionary. *)
Definition getattr (a : addr) (name : string) : M pyval :=
  t <- get_tensor a ;;
  match ob_dict t !! name with
  | Some v => ret v
  | None => raise AttributeError
  end.

Definition setattr (a : addr) (name : string) (v : pyval) : M unit :=
  t <- get_tensor a ;;
  put_tensor a (mk_tensor (ob_type t) (ob_storage t) (ob_sizes t)
                          (ob_strides t) (ob_requires_grad t)
                          (<[name := v]> (ob_dict t))).

(** [{}], [OrderedDict()] *)
Definition dict_new : M addr := alloc (ODict ∅).
Definition OrderedDict : M addr := alloc (OOrderedDict []).

(** [k in d], [d[k]], [d[k] = v] *)
Definition dict_contains (d : addr) (k : key) : M bool :=
  m <- get_dict d ;; ret (bool_decide (is_Some (m !! k))).

Definition dict_getitem (d : addr) (k : key) : M pyval :=
  m <- get_dict d ;;
  match m !! k with
  | Some v => ret v
  | None => raise KeyError
  end.

Definition dict_setitem (d : addr) (k : key) (v : pyval) : M unit :=
  m <- get_dict d ;;
  fun h => Ok tt (<[d := ODict (<[k := v]> m)]> h).

(** Truth value of an object, as [if x:] tests it.  The truth value of a
    tensor is the engine's business and is not modelled: the test raises. *)
Definition truthy (v : pyval) : M bool :=
  match v with
  | VNone => ret false
  | VBool b => ret b
  | VInt z => ret (negb (Z.eqb z 0))
  | VStr s => ret (negb (String.eqb s ""))
  | VFun _ => ret true
  | VTuple vs => ret (negb (Nat.eqb (length vs) 0))
  | VRef a =>
      fun h => match h !! a with
               | Some (ODict d) => Ok (negb (bool_decide (d = ∅))) h
               | Some (OOrderedDict d) => Ok (negb (Nat.eqb (length d) 0)) h
               | Some (OTensor _) => Raise RuntimeError
               | Some (OStorage buf) => Ok (negb (Nat.eqb (length buf) 0)) h
               | None => Raise TypeError
               end
  end.

Definition is_None (v : pyval) : bool :=
  match v with VNone => true | _ => false end.

(** ** The tensor engine *)

Module torch.

(** Strides of a dense row-major tensor of the given sizes. *)
Fixpoint contiguous_strides (sizes : list nat) : list nat :=
  match sizes with
  | [] => []
  | _ :: rest => foldr Nat.mul 1 rest :: contiguous_strides rest
  end.

(** Modelled from the spec: the tensor engine's constructor [torch.Tensor()]
    called with no argument; it answers "an empty tensor": a new tensor on
    a new storage that holds no element. *)
Definition Tensor : M addr :=
  s <- alloc (OStorage []) ;;
  alloc (OTensor (mk_tensor cls_Tensor s [0] [1] false ∅)).

(** Modelled from the spec: [torch.Tensor._make_subclass(cls, data,
    requires_grad)], the "subclass-construction primitive that binds a
    tensor-like object to a given wrapper type while preserving a
    gradient-tracking flag".  The new object is of type [cls], it does not
    duplicate storage ("it wraps/aliases it") and it keeps the layout of
    [data]. *)
Definition _make_subclass (c : cls) (data : pyval) (requires_grad : bool)
  : M addr :=
  match data with
  | VRef d =>
      t <- get_tensor d ;;
      alloc (OTensor (mk_tensor c (ob_storage t) (ob_sizes t) (ob_strides t)
                                requires_grad ∅))
  | _ => raise TypeError
  end.

(** Modelled from the spec: the property [x.data], a plain tensor that
    shares the storage of [x] and tracks no gradient. *)
Definition data (self : addr) : M addr :=
  t <- get_tensor self ;;
  alloc (OTensor (mk_tensor cls_Tensor (ob_storage t) (ob_sizes t)
                            (ob_strides t) false ∅)).

(** The property [x.requires_grad]. *)
Definition requires_grad (self : addr) : M bool :=
  t <- get_tensor self ;; ret (ob_requires_grad t).

(** Modelled from the spec: [x.clone(memory_format=...)], the
    "storage-preserving clone operation": the elements are copied into a
    storage of the clone's own; with [preserve_format] the clone has the
    layout of [x]. *)
Definition clone (self : addr) (mf : memory_format) : M addr :=
  t <- get_tensor self ;;
  buf <- get_storage (ob_storage t) ;;
  s <- alloc (OStorage buf) ;;
  alloc (OTensor (mk_tensor cls_Tensor s (ob_sizes t)
                            match mf with
                            | preserve_format => ob_strides t
                            | contiguous_format =>
                                contiguous_strides (ob_sizes t)
                            end
                            (ob_requires_grad t) ∅)).

(** Modelled from the spec: a mutation of the storage of a tensor, the
    in-place write of one element of the storage [x] views. *)
Definition storage_write (self : addr) (i : nat) (v : Z) : M unit :=
  t <- get_tensor self ;;
  buf <- get_storage (ob_storage t) ;;
  if bool_decide (i < length buf)%nat
  then fun h => Ok tt (<[ob_storage t := OStorage (<[i := v]> buf)]> h)
  else raise IndexError.

End torch.

(** ** torch.nn.Parameter *)

Module nn_Parameter.

Definition __new__ (c : cls) (data : pyval) (requires_grad : bool)
  (tags : pyval) : M addr :=
  data <- (if is_None data
           then d <- torch.Tensor ;; ret (VRef d)
           else ret data) ;;
  instance <- torch._make_subclass c data requires_grad ;;
  tags <- (if is_None tags
           then d <- dict_new ;; ret (VRef d)
           else ret tags) ;;
  setattr instance "tags" tags ;;;
  ret instance.

(** [type(self)(data, requires_grad, tags)]: a call of the class runs its
    [__new__]. *)
Definition call (c : cls) (data : pyval) (requires_grad : bool)
  (tags : pyval) : M addr :=
  __new__ c data requires_grad tags.

Definition __deepcopy__ (self memo : addr) : M pyval :=
  found <- dict_contains memo (KInt (py_id self)) ;;
  if (found : bool)
  then dict_getitem memo (KInt (py_id self))
  else
    c <- py_type self ;;
    d <- torch.data self ;;
    cloned <- torch.clone d preserve_format ;;
    rg <- torch.requires_grad self ;;
    tags <- getattr self "tags" ;;
    result <- call c (VRef cloned) rg tags ;;
    dict_setitem memo (KInt (py_id self)) (VRef result) ;;;
    ret (VRef result).

(** The banner, ['Parameter containing:\n']. *)
Definition banner : string :=
  "Parameter containing:" ++ String "010"%char "".

Section Repr.

(** [torch.Tensor.__repr__], the tensor engine's default formatter, which
    [super(Parameter, self).__repr__()] runs on [self]. *)
Variable Tensor___repr__ : addr -> M string.

Definition __repr__ (self : addr) : M string :=
  s <- Tensor___repr__ self ;;
  ret (banner ++ s).

End Repr.

Definition __reduce_ex__ (self : addr) (proto : pyval) : M pyval :=
  tags <- getattr self "tags" ;;
  nonempty <- truthy tags ;;
  if (nonempty : bool)
  then
    d <- torch.data self ;;
    rg <- torch.requires_grad self ;;
    hooks <- OrderedDict ;;
    tags <- getattr self "tags" ;;
    ret (VTuple [VFun fn_rebuild_parameter;
                 VTuple [VRef d; VBool rg; VRef hooks; tags]])
  else
    d <- torch.data self ;;
    rg <- torch.requires_grad self ;;
    hooks <- OrderedDict ;;
    ret (VTuple [VFun fn_rebuild_parameter;
                 VTuple [VRef d; VBool rg; VRef hooks]]).

End nn_Parameter.

(** ** torch._utils *)

Module _utils.

(** Modelled from the spec: [torch._utils._rebuild_parameter], the
    reconstruction function of the recipe.  Replaying a recipe "rebuilds an
    equivalent Parameter" from [(data, requires_grad, hooks)] or from
    [(data, requires_grad, hooks, tags)]; the third argument fills the
    "legacy hook-registration slot". *)
Definition _rebuild_parameter (args : list pyval) : M pyval :=
  match args with
  | [data; VBool requires_grad; hooks] =>
      param <- nn_Parameter.call cls_Parameter data requires_grad VNone ;;
      setattr param "_backward_hooks" hooks ;;;
      ret (VRef param)
  | [data; VBool requires_grad; hooks; tags] =>
      param <- nn_Parameter.call cls_Parameter data requires_grad tags ;;
      setattr param "_backward_hooks" hooks ;;;
      ret (VRef param)
  | _ => raise TypeError
  end.

End _utils.

Definition call_builtin (f : builtin) (args : list pyval) : M pyval :=
  match f with
  | fn_rebuild_parameter => _utils._rebuild_parameter args
  end.

(** Replaying a recipe [(function, args)]: the function is applied to the
    components of [args]. *)
Definition replay (recipe : pyval) : M pyval :=
  match recipe with
  | VTuple [VFun f; VTuple args] => call_builtin f args
  | _ => raise TypeError
  end.

(** ** torch.nn.Module: the persisted snapshot *)

Module nn_Module.

(** What a snapshot holds of one parameter. *)
Record persisted := mk_persisted {
  p_sizes : list nat;
  p_strides : list nat;
  p_values : list Z;
  p_requires_grad : bool
}.

(** Modelled from the spec: one entry of a module's
    "persisted-parameter-values snapshot": "only [data] and the grad flag
    are persisted there". *)
Definition persist (h : heap) (p : addr) : option persisted :=
  match h !! p with
  | Some (OTensor t) =>
      match h !! ob_storage t with
      | Some (OStorage buf) =>
          Some (mk_persisted (ob_sizes t) (ob_strides t) buf
                             (ob_requires_grad t))
      | _ => None
      end
  | _ => None
  end.

(** Modelled from the spec: [Module.state_dict()] over the named parameters
    a module holds. *)
Fixpoint state_dict (h : heap) (params : list (string * addr))
  : option (list (string * persisted)) :=
  match params with
  | [] => Some []
  | (name, p) :: rest =>
      match persist h p, state_dict h rest with
      | Some v, Some vs => Some ((name, v) :: vs)
      | _, _ => None
      end
  end.

End nn_Module.

(** ** Vocabulary of the statements *)

(** [self] is a live Parameter of the heap: a tensor object on a live
    storage whose [tags] attribute refers to a live dictionary. *)
Definition is_parameter (h : heap) (self : addr) (param : tensor_obj)
  (buf : list Z) (tg : addr) (m : gmap key pyval) : Prop :=
  h !! self = Some (OTensor param) ∧
  h !! ob_storage param = Some (OStorage buf) ∧
  ob_dict param !! "tags" = Some (VRef tg) ∧
  h !! tg = Some (ODict m).

(** What may be passed as [data]: nothing, or a live tensor. *)
Definition tensor_or_None (h : heap) (data : pyval) : Prop :=
  data = VNone ∨ ∃ d t, data = VRef d ∧ h !! d = Some (OTensor t).

(** The object [__new__] leaves behind for the tensor [t]. *)
Definition new_tensor (c : cls) (t : tensor_obj) (g : bool) (tags : pyval)
  : tensor_obj :=
  mk_tensor c (ob_storage t) (ob_sizes t) (ob_strides t) g
            {["tags" := tags]}.

(** The plain tensor [x.data] answers for [t]. *)
Definition data_tensor (t : tensor_obj) : tensor_obj :=
  mk_tensor cls_Tensor (ob_storage t) (ob_sizes t) (ob_strides t) false ∅.

(** Two objects that differ at most in what [tags] holds: the instance
    dictionaries of tensors and the contents of dictionaries are free. *)
Definition same_but_tags (o o' : object) : Prop :=
  match o, o' with
  | OStorage b, OStorage b' => b = b'
  | OTensor t, OTensor t' =>
      ob_type t = ob_type t' ∧ ob_storage t = ob_storage t' ∧
      ob_sizes t = ob_sizes t' ∧ ob_strides t = ob_strides t' ∧
      ob_requires_grad t = ob_requires_grad t'
  | ODict _, ODict _ => True
  | OOrderedDict d, OOrderedDict d' => d = d'
  | _, _ => False
  end.

Definition agree_up_to_tags (h h' : heap) : Prop :=
  ∀ a, match h !! a, h' !! a with
       | Some o, Some o' => same_but_tags o o'
       | None, None => True
       | _, _ => False
       end.

(** The value a computation answers, when it raises nothing. *)
Definition answer {A} (r : result A) : option A :=
  match r with
  | Ok a _ => Some a
  | Raise _ => None
  end.

(** ** Sample heaps *)

Module Sample.

Definition weights : list Z := [11; 22; 33]%Z.

Definition plain : tensor_obj :=
  mk_tensor cls_Tensor 1%positive [3] [1] false ∅.

(** A storage of three elements and a plain tensor on it. *)
Definition h_tensor : heap :=
  {[ 1%positive := OStorage weights; 2%positive := OTensor plain ]}.

Definition optim : gmap key pyval := {[ KStr "optimizer" := VStr "sgd" ]}.

Definition tagged : tensor_obj :=
  mk_tensor cls_Parameter 1%positive [3] [1] true
            {["tags" := VRef 3%positive]}.

Definition untagged : tensor_obj :=
  mk_tensor cls_Parameter 1%positive [3] [1] true
            {["tags" := VRef 4%positive]}.

(** Two Parameters on one storage, one with tags and one without, and an
    empty memo dictionary. *)
Definition h_params : heap :=
  {[ 1%positive := OStorage weights;
     3%positive := ODict optim;
     4%positive := ODict ∅;
     5%positive := OTensor tagged;
     6%positive := OTensor untagged;
     7%positive := ODict ∅ ]}.

(** The same heap after the copy of object 5 was recorded as object 6. *)
Definition h_memo : heap :=
  <[ 7%positive := ODict {[ KInt 5 := VRef 6%positive ]} ]> h_params.

(** A formatter that prints no element, only whether gradients are
    tracked. *)
Definition show_flag (a : addr) : M string :=
  t <- get_tensor a ;;
  ret (if ob_requires_grad t
       then "tensor(..., requires_grad=True)"
       else "tensor(...)").

(** [h_params] after the tags of object 5 were replaced and the
    dictionary 4 filled. *)
Definition h_retagged : heap :=
  <[ 5%positive := OTensor (mk_tensor cls_Parameter 1%positive [3] [1] true
                                      {["tags" := VRef 4%positive]}) ]>
  (<[ 4%positive := ODict optim ]> h_params).

End Sample.

(** ** Vocabulary of the further properties *)

(** [self] is a live tensor object on a live storage whose [tags]
    attribute holds [tags], whatever that is. *)
Definition has_tags (h : heap) (self : addr) (param : tensor_obj)
  (buf : list Z) (tags : pyval) : Prop :=
  h !! self = Some (OTensor param) ∧
  h !! ob_storage param = Some (OStorage buf) ∧
  ob_dict param !! "tags" = Some tags.

(** What a caller does with the tags of a Parameter: [p.tags[k] = v] and
    [p.tags[k]]. *)
Definition tags_setitem (p : addr) (k : key) (v : pyval) : M unit :=
  t <- getattr p "tags" ;;
  match t with
  | VRef d => dict_setitem d k v
  | _ => raise TypeError
  end.

Definition tags_getitem (p : addr) (k : key) : M pyval :=
  t <- getattr p "tags" ;;
  match t with
  | VRef d => dict_getitem d k
  | _ => raise TypeError
  end.

(** The argument tuple of a recipe. *)
Definition recipe_args (recipe : pyval) : option (list pyval) :=
  match recipe with
  | VTuple [VFun _; VTuple args] => Some args
  | _ => None
  end.

Module Sample2.

(** [Sample.h_params] with a second memo dictionary. *)
Definition h_two_memos : heap := <[ 8%positive := ODict ∅ ]> Sample.h_params.

Definition bare : tensor_obj :=
  mk_tensor cls_Parameter 1%positive [3] [1] true ∅.

(** A Parameter object that has no [tags] attribute, and two memo
    dictionaries, the second of which knows the Parameter. *)
Definition h_bare : heap :=
  {[ 1%positive := OStorage Sample.weights;
     2%positive := OTensor bare;
     3%positive := ODict ∅;
     4%positive := ODict {[ KInt 2 := VRef 2%positive ]} ]}.

Definition none_tagged : tensor_obj :=
  mk_tensor cls_Parameter 1%positive [3] [1] true {["tags" := VNone]}.

(** A Parameter whose [tags] attribute was set to [None], and a memo. *)
Definition h_none : heap :=
  {[ 1%positive := OStorage Sample.weights;
     2%positive := OTensor none_tagged;
     3%positive := ODict ∅ ]}.

Definition hooked : tensor_obj :=
  mk_tensor cls_Parameter 1%positive [3] [1] true
            {["tags" := VRef 3%positive;
              "_backward_hooks" := VRef 2%positive]}.

(** A Parameter with tags and with a registered hook. *)
Definition h_hooked : heap :=
  {[ 1%positive := OStorage Sample.weights;
     2%positive := OOrderedDict [(KInt 0, VStr "hook")];
     3%positive := ODict Sample.optim;
     4%positive := OTensor hooked ]}.

End Sample2.

(** ** The monad and the heap primitives *)

Lemma fresh_None (h : heap) : h !! fresh (dom h) = None.
Proof. apply not_elem_of_dom, is_fresh. Qed.

Lemma alloc_ok (o : object) (h : heap) :
  ∃ a, h !! a = None ∧ alloc o h = Ok a (<[a := o]> h).
Proof. exists (fresh (dom h)). split; [apply fresh_None | reflexivity]. Qed.

Lemma bind_Ok {A B} (m : M A) (f : A → M B) h a h' :
  m h = Ok a h' → bind m f h = f a h'.
Proof. unfold bind. by intros ->. Qed.

Lemma bind_assoc {A B C} (m : M A) (f : A → M B) (g : B → M C) h :
  bind (bind m f) g h = bind m (fun x => bind (f x) g) h.
Proof. unfold bind. by destruct (m h). Qed.

Lemma get_tensor_Ok h a t :
  h !! a = Some (OTensor t) → get_tensor a h = Ok t h.
Proof. unfold get_tensor. by intros ->. Qed.

Lemma get_storage_Ok h a buf :
  h !! a = Some (OStorage buf) → get_storage a h = Ok buf h.
Proof. unfold get_storage. by intros ->. Qed.

Lemma get_dict_Ok h a m :
  h !! a = Some (ODict m) → get_dict a h = Ok m h.
Proof. unfold get_dict. by intros ->. Qed.

(** One step of a computation: the first action of the goal's [bind] is
    run by [tac]. *)
Ltac mstep tac := erewrite bind_Ok by (tac).

(** A live address differs from one that is free in the same heap. *)
Ltac fresh_ne :=
  match goal with
  | |- ?a ≠ ?b => let E := fresh in intros E; subst; congruence
  end.

(** Lookups under insertions at other addresses. *)
Ltac look :=
  repeat first
    [ rewrite lookup_insert_eq
    | rewrite lookup_insert_ne by (first [done | fresh_ne]) ];
  try done.

Lemma py_type_Ok h a t :
  h !! a = Some (OTensor t) → py_type a h = Ok (ob_type t) h.
Proof. intros Ha. unfold py_type. by mstep ltac:(by apply get_tensor_Ok). Qed.

Lemma getattr_Ok h a t name v :
  h !! a = Some (OTensor t) → ob_dict t !! name = Some v →
  getattr a name h = Ok v h.
Proof.
  intros Ha Hv. unfold getattr. mstep ltac:(by apply get_tensor_Ok).
  by rewrite Hv.
Qed.

Lemma setattr_Ok h a t name v :
  h !! a = Some (OTensor t) →
  setattr a name v h =
  Ok tt (<[a := OTensor (mk_tensor (ob_type t) (ob_storage t) (ob_sizes t)
                           (ob_strides t) (ob_requires_grad t)
                           (<[name := v]> (ob_dict t)))]> h).
Proof.
  intros Ha. unfold setattr. by mstep ltac:(by apply get_tensor_Ok).
Qed.

Lemma dict_contains_Ok h d m k :
  h !! d = Some (ODict m) →
  dict_contains d k h = Ok (bool_decide (is_Some (m !! k))) h.
Proof.
  intros Hd. unfold dict_contains. by mstep ltac:(by apply get_dict_Ok).
Qed.

Lemma dict_getitem_Ok h d m k v :
  h !! d = Some (ODict m) → m !! k = Some v → dict_getitem d k h = Ok v h.
Proof.
  intros Hd Hk. unfold dict_getitem. mstep ltac:(by apply get_dict_Ok).
  by rewrite Hk.
Qed.

Lemma dict_setitem_Ok h d m k v :
  h !! d = Some (ODict m) →
  dict_setitem d k v h = Ok tt (<[d := ODict (<[k := v]> m)]> h).
Proof.
  intros Hd. unfold dict_setitem. by mstep ltac:(by apply get_dict_Ok).
Qed.

Lemma truthy_dict h tg m :
  h !! tg = Some (ODict m) →
  truthy (VRef tg) h = Ok (negb (bool_decide (m = ∅))) h.
Proof. intros Htg. cbn. by rewrite Htg. Qed.

(** ** The tensor engine *)

Lemma Tensor_spec (h : heap) :
  ∃ s d, h !! s = None ∧ h !! d = None ∧ s ≠ d ∧
    torch.Tensor h =
    Ok d (<[d := OTensor (mk_tensor cls_Tensor s [0%nat] [1%nat] false ∅)]>
            (<[s := OStorage []]> h)).
Proof.
  destruct (alloc_ok (OStorage []) h) as (s & Hs & Es).
  destruct (alloc_ok (OTensor (mk_tensor cls_Tensor s [0%nat] [1%nat] false ∅))
              (<[s := OStorage []]> h)) as (d & Hd & Ed).
  apply lookup_insert_None in Hd as [Hd Hsd].
  exists s, d. do 3 (split; [done|]).
  unfold torch.Tensor. mstep ltac:(exact Es). exact Ed.
Qed.

Lemma data_spec h self t :
  h !! self = Some (OTensor t) →
  ∃ d, h !! d = None ∧
    torch.data self h = Ok d (<[d := OTensor (data_tensor t)]> h).
Proof.
  intros Hself.
  destruct (alloc_ok (OTensor (data_tensor t)) h) as (d & Hd & Ed).
  exists d. split; [done|].
  unfold torch.data. mstep ltac:(by apply get_tensor_Ok). exact Ed.
Qed.

Lemma requires_grad_Ok h self t :
  h !! self = Some (OTensor t) →
  torch.requires_grad self h = Ok (ob_requires_grad t) h.
Proof.
  intros Hself. unfold torch.requires_grad.
  by mstep ltac:(by apply get_tensor_Ok).
Qed.

Lemma clone_preserve_spec h self t buf :
  h !! self = Some (OTensor t) →
  h !! ob_storage t = Some (OStorage buf) →
  ∃ s c, h !! s = None ∧ h !! c = None ∧ s ≠ c ∧
    torch.clone self preserve_format h =
    Ok c (<[c := OTensor (mk_tensor cls_Tensor s (ob_sizes t) (ob_strides t)
                                    (ob_requires_grad t) ∅)]>
            (<[s := OStorage buf]> h)).
Proof.
  intros Hself Hbuf.
  destruct (alloc_ok (OStorage buf) h) as (s & Hs & Es).
  destruct (alloc_ok (OTensor (mk_tensor cls_Tensor s (ob_sizes t)
                                 (ob_strides t) (ob_requires_grad t) ∅))
              (<[s := OStorage buf]> h)) as (c & Hc & Ec).
  apply lookup_insert_None in Hc as [Hc Hsc].
  exists s, c. do 3 (split; [done|]).
  unfold torch.clone. mstep ltac:(by apply get_tensor_Ok).
  mstep ltac:(by apply get_storage_Ok). mstep ltac:(exact Es). exact Ec.
Qed.

Lemma storage_write_Ok h self t buf i v :
  h !! self = Some (OTensor t) →
  h !! ob_storage t = Some (OStorage buf) →
  (i < length buf)%nat →
  torch.storage_write self i v h =
  Ok tt (<[ob_storage t := OStorage (<[i := v]> buf)]> h).
Proof.
  intros Hself Hbuf Hi. unfold torch.storage_write.
  mstep ltac:(by apply get_tensor_Ok). mstep ltac:(by apply get_storage_Ok).
  by rewrite bool_decide_eq_true_2.
Qed.

(** ** Construction *)

Lemma new_ref_spec h c d t g tags :
  h !! d = Some (OTensor t) →
  ∃ p tg, h !! p = None ∧ h !! tg = None ∧ p ≠ tg ∧
    nn_Parameter.__new__ c (VRef d) g tags h =
    Ok p (<[p := OTensor (new_tensor c t g
                            (if is_None tags then VRef tg else tags))]>
            (if is_None tags then <[tg := ODict ∅]> h else h)).
Proof.
  intros Hd.
  set (t0 := mk_tensor c (ob_storage t) (ob_sizes t) (ob_strides t) g ∅).
  destruct (alloc_ok (OTensor t0) h) as (p & Hp & Ep).
  destruct (alloc_ok (ODict ∅) (<[p := OTensor t0]> h)) as (tg & Htg & Etg).
  apply lookup_insert_None in Htg as [Htg Hne].
  exists p, tg. do 3 (split; [done|]).
  unfold nn_Parameter.__new__. cbn [is_None].
  mstep ltac:(reflexivity).
  mstep ltac:(unfold torch._make_subclass;
              mstep ltac:(by apply get_tensor_Ok); exact Ep).
  destruct tags; cbn [is_None].
  1: { mstep ltac:(unfold dict_new; mstep ltac:(exact Etg); reflexivity).
       mstep ltac:(apply setattr_Ok; look).
       unfold ret, new_tensor. cbn. rewrite insert_empty.
       rewrite (insert_insert_ne _ tg p) by done.
       by rewrite insert_insert_eq. }
  all: mstep ltac:(reflexivity); mstep ltac:(apply setattr_Ok; look);
       unfold ret, new_tensor; cbn; by rewrite insert_empty, insert_insert_eq.
Qed.

Lemma new_None_unfold h c g tags :
  nn_Parameter.__new__ c VNone g tags h =
  bind torch.Tensor (fun d => nn_Parameter.__new__ c (VRef d) g tags) h.
Proof.
  unfold nn_Parameter.__new__. cbn [is_None]. by rewrite bind_assoc.
Qed.

(** Both ways of passing [data], in one statement: the new object [p], the
    tensor [t] it was made from, and the heap [h1] the call of
    [_make_subclass] started from, which extends [h] by at most the empty
    tensor and its storage. *)
Lemma new_spec h c data g tags :
  tensor_or_None h data →
  ∃ p tg t h1, h1 !! p = None ∧ h1 !! tg = None ∧ p ≠ tg ∧
    h ⊆ h1 ∧
    (∀ a m, h1 !! a = Some (ODict m) → h !! a = Some (ODict m)) ∧
    (∀ d, data = VRef d → h1 = h ∧ h !! d = Some (OTensor t)) ∧
    (data = VNone →
       ob_sizes t = [0%nat] ∧ h !! ob_storage t = None ∧
       h1 !! ob_storage t = Some (OStorage [])) ∧
    nn_Parameter.__new__ c data g tags h =
    Ok p (<[p := OTensor (new_tensor c t g
                            (if is_None tags then VRef tg else tags))]>
            (if is_None tags then <[tg := ODict ∅]> h1 else h1)).
Proof.
  intros [-> | (d & t & -> & Hd)].
  - destruct (Tensor_spec h) as (s & d & Hs & Hd & Hsd & ET).
    set (t := mk_tensor cls_Tensor s [0%nat] [1%nat] false ∅) in *.
    set (h1 := <[d := OTensor t]> (<[s := OStorage []]> h)) in *.
    destruct (new_ref_spec h1 c d t g tags) as (p & tg & Hp & Htg & Hne & EN).
    { unfold h1. look. }
    exists p, tg, t, h1. do 3 (split; [done|]).
    split.
    { unfold h1. etrans; [|apply insert_subseteq; by rewrite lookup_insert_ne].
      by apply insert_subseteq. }
    split.
    { intros a m. unfold h1. intros Ha.
      apply lookup_insert_Some in Ha as [[_ ?] | [_ Ha]]; [done|].
      apply lookup_insert_Some in Ha as [[_ ?] | [_ Ha]]; done. }
    split; [done|]. split.
    { intros _. cbn. split; [done|]. split; [done|]. unfold h1. look. }
    rewrite new_None_unfold. mstep ltac:(exact ET). exact EN.
  - destruct (new_ref_spec h c d t g tags) as (p & tg & Hp & Htg & Hne & EN);
      [done|].
    exists p, tg, t, h. do 3 (split; [done|]). split; [done|].
    split; [done|]. split; [|split; [done|exact EN]].
    intros d' [= <-]. done.
Qed.

(** ** The claims on construction *)

(** C2: for every tensor [t] (the live object [d], on the storage holding
    [buf]) and every boolean [g], constructing a Parameter from [(t, g)]
    yields a new object of the class that was called, which views the very
    storage of [t] with the layout of [t], nothing being copied, and whose
    [requires_grad] flag is [g]. *)
Theorem new_wraps_data (h : heap) (c : cls) (d : addr) (t : tensor_obj)
  (buf : list Z) (g : bool) (tags : pyval) :
  h !! d = Some (OTensor t) →
  h !! ob_storage t = Some (OStorage buf) →
  ∃ p h' param,
    nn_Parameter.__new__ c (VRef d) g tags h = Ok p h' ∧
    h !! p = None ∧
    h' !! p = Some (OTensor param) ∧
    ob_type param = c ∧
    ob_storage param = ob_storage t ∧
    ob_sizes param = ob_sizes t ∧
    ob_strides param = ob_strides t ∧
    h' !! ob_storage param = Some (OStorage buf) ∧
    ob_requires_grad param = g.
Proof.
  intros Hd Hbuf.
  destruct (new_ref_spec h c d t g tags) as (p & tg & Hp & Htg & Hne & EN);
    [done|].
  eexists p, _, _. split; [exact EN|]. split; [done|].
  split; [by rewrite lookup_insert_eq|]. cbn. do 4 (split; [done|]).
  split; [|done]. destruct (is_None tags); look.
Qed.

Lemma new_wraps_data_witness :
  ∃ p h' param,
    nn_Parameter.__new__ cls_Parameter (VRef 2%positive) false VNone
      Sample.h_tensor = Ok p h' ∧
    Sample.h_tensor !! p = None ∧
    h' !! p = Some (OTensor param) ∧
    ob_type param = cls_Parameter ∧
    ob_storage param = 1%positive ∧
    ob_sizes param = [3%nat] ∧
    ob_strides param = [1%nat] ∧
    h' !! ob_storage param = Some (OStorage Sample.weights) ∧
    ob_requires_grad param = false.
Proof.
  apply (new_wraps_data Sample.h_tensor cls_Parameter 2%positive Sample.plain
           Sample.weights false VNone); reflexivity.
Defined.

(** C3: constructing a Parameter with [data] absent yields a Parameter
    that wraps an empty tensor: its storage is new and holds no element. *)
Theorem new_without_data (h : heap) (c : cls) (g : bool) (tags : pyval) :
  ∃ p h' param,
    nn_Parameter.__new__ c VNone g tags h = Ok p h' ∧
    h !! p = None ∧
    h' !! p = Some (OTensor param) ∧
    ob_type param = c ∧
    ob_requires_grad param = g ∧
    ob_sizes param = [0%nat] ∧
    h !! ob_storage param = None ∧
    h' !! ob_storage param = Some (OStorage []).
Proof.
  destruct (new_spec h c VNone g tags) as
    (p & tg & t & h1 & Hp & Htg & Hne & Hsub & _ & _ & Hempty & EN);
    [by left|].
  destruct Hempty as (Hsz & Hs & Hs1); [done|].
  eexists p, _, _. split; [exact EN|].
  split; [by eapply lookup_weaken_None|].
  split; [by rewrite lookup_insert_eq|]. cbn. do 4 (split; [done|]).
  destruct (is_None tags); look.
Qed.

(** C4: when no [tags] is passed, the [tags] attribute of the new Parameter
    refers to a dictionary that did not exist before the call and is
    empty; when one is passed, the attribute is the very reference that
    was passed, and the call creates no dictionary.  No object that was
    live before the call is changed. *)
Theorem new_tags (h : heap) (c : cls) (data : pyval) (g : bool)
  (tags : pyval) :
  tensor_or_None h data →
  ∃ p h' param,
    nn_Parameter.__new__ c data g tags h = Ok p h' ∧
    h' !! p = Some (OTensor param) ∧
    (∀ a o, h !! a = Some o → h' !! a = Some o) ∧
    if is_None tags
    then ∃ tg, ob_dict param !! "tags" = Some (VRef tg) ∧
               h !! tg = None ∧ h' !! tg = Some (ODict ∅)
    else ob_dict param !! "tags" = Some tags ∧
         ∀ a m, h' !! a = Some (ODict m) → h !! a = Some (ODict m).
Proof.
  intros Hdata.
  destruct (new_spec h c data g tags Hdata) as
    (p & tg & t & h1 & Hp & Htg & Hne & Hsub & Hdicts & _ & _ & EN).
  eexists p, _, _. split; [exact EN|].
  split; [by rewrite lookup_insert_eq|]. split.
  - intros a o Ha. pose proof (lookup_weaken _ _ _ _ Ha Hsub) as Ha1.
    destruct (is_None tags); look.
  - destruct (is_None tags) eqn:Etags.
    + exists tg. split; [apply lookup_singleton_eq|].
      split; [by eapply lookup_weaken_None|]. look.
    + split; [apply lookup_singleton_eq|].
      intros a m Ha. apply Hdicts.
      apply lookup_insert_Some in Ha as [[_ ?] | [_ Ha]]; done.
Qed.

Lemma new_tags_witness :
  ∃ p h' param,
    nn_Parameter.__new__ cls_Parameter (VRef 5%positive) true
      (VRef 3%positive) Sample.h_params = Ok p h' ∧
    h' !! p = Some (OTensor param) ∧
    (∀ a o, Sample.h_params !! a = Some o → h' !! a = Some o) ∧
    ob_dict param !! "tags" = Some (VRef 3%positive) ∧
    ∀ a m, h' !! a = Some (ODict m) →
           Sample.h_params !! a = Some (ODict m).
Proof.
  apply (new_tags Sample.h_params cls_Parameter (VRef 5%positive) true
           (VRef 3%positive)).
  right. by exists 5%positive, Sample.tagged.
Defined.

(** ** Deep copy *)

Lemma deepcopy_hit h self memo mm v :
  h !! memo = Some (ODict mm) →
  mm !! KInt (py_id self) = Some v →
  nn_Parameter.__deepcopy__ self memo h = Ok v h.
Proof.
  intros Hmemo Hk. unfold nn_Parameter.__deepcopy__.
  mstep ltac:(by apply dict_contains_Ok).
  rewrite bool_decide_eq_true_2 by (by rewrite Hk).
  by apply dict_getitem_Ok with mm.
Qed.

Lemma deepcopy_miss h self memo param buf tg m mm :
  is_parameter h self param buf tg m →
  h !! memo = Some (ODict mm) →
  mm !! KInt (py_id self) = None →
  ∃ d s cl r,
    h !! d = None ∧ h !! s = None ∧ h !! cl = None ∧ h !! r = None ∧
    s ≠ cl ∧ s ≠ r ∧
    nn_Parameter.__deepcopy__ self memo h =
    Ok (VRef r)
       (<[memo := ODict (<[KInt (py_id self) := VRef r]> mm)]>
        (<[r := OTensor (mk_tensor (ob_type param) s (ob_sizes param)
                           (ob_strides param) (ob_requires_grad param)
                           {["tags" := VRef tg]})]>
         (<[cl := OTensor (mk_tensor cls_Tensor s (ob_sizes param)
                             (ob_strides param) false ∅)]>
          (<[s := OStorage buf]>
           (<[d := OTensor (data_tensor param)]> h))))).
Proof.
  intros (Hself & Hbuf & Htags & Htg) Hmemo Hk.
  destruct (data_spec h self param Hself) as (d & Hd & Ed).
  set (h1 := <[d := OTensor (data_tensor param)]> h) in *.
  destruct (clone_preserve_spec h1 d (data_tensor param) buf)
    as (s & cl & Hs & Hcl & Hscl & Ecl).
  { unfold h1. look. }
  { unfold h1. cbn. look. }
  cbn [data_tensor ob_sizes ob_strides ob_requires_grad] in Ecl.
  set (clone := mk_tensor cls_Tensor s (ob_sizes param) (ob_strides param)
                          false ∅) in *.
  set (h3 := <[cl := OTensor clone]> (<[s := OStorage buf]> h1)) in *.
  destruct (new_ref_spec h3 (ob_type param) cl clone (ob_requires_grad param)
              (VRef tg)) as (r & tg' & Hr & _ & _ & Er).
  { unfold h3. look. }
  cbn [is_None] in Er.
  apply lookup_insert_None in Hs as [Hs Hds].
  apply lookup_insert_None in Hcl as [Hcl Hdcl].
  unfold h3 in Hr.
  apply lookup_insert_None in Hr as [Hr Hclr].
  apply lookup_insert_None in Hr as [Hr Hsr].
  apply lookup_insert_None in Hr as [Hr Hdr].
  exists d, s, cl, r. do 6 (split; [done|]).
  unfold nn_Parameter.__deepcopy__.
  mstep ltac:(by apply dict_contains_Ok).
  rewrite bool_decide_eq_false_2 by (rewrite Hk; by intros [? ?]).
  mstep ltac:(by apply py_type_Ok).
  mstep ltac:(exact Ed).
  mstep ltac:(exact Ecl).
  mstep ltac:(apply requires_grad_Ok with (t := param); unfold h3, h1; look).
  mstep ltac:(apply getattr_Ok with (t := param); [unfold h3, h1; look|done]).
  mstep ltac:(exact Er).
  mstep ltac:(apply dict_setitem_Ok with (m := mm); unfold h3, h1; look).
  reflexivity.
Qed.

(** C5: deep-copying a Parameter [self] whose identity is no key of the
    memo yields a new object [r] of the type of [self], with the layout
    and the [requires_grad] flag of [self], whose [tags] attribute is the
    very reference [self] holds, and whose storage is new and holds the
    elements of [self]; the original is left as it was, and a write of any
    element through the copy changes the storage of the copy and leaves
    the storage of the original as it was. *)
Theorem deepcopy_copies (h : heap) (self memo : addr) (param : tensor_obj)
  (buf : list Z) (tg : addr) (m mm : gmap key pyval) :
  is_parameter h self param buf tg m →
  h !! memo = Some (ODict mm) →
  mm !! KInt (py_id self) = None →
  ∃ r h' copy,
    nn_Parameter.__deepcopy__ self memo h = Ok (VRef r) h' ∧
    h !! r = None ∧
    h' !! r = Some (OTensor copy) ∧
    h' !! self = Some (OTensor param) ∧
    ob_type copy = ob_type param ∧
    ob_sizes copy = ob_sizes param ∧
    ob_strides copy = ob_strides param ∧
    ob_requires_grad copy = ob_requires_grad param ∧
    ob_dict copy !! "tags" = Some (VRef tg) ∧
    h !! ob_storage copy = None ∧
    ob_storage copy ≠ ob_storage param ∧
    h' !! ob_storage copy = Some (OStorage buf) ∧
    h' !! ob_storage param = Some (OStorage buf) ∧
    ∀ i v, (i < length buf)%nat →
      ∃ h'', torch.storage_write r i v h' = Ok tt h'' ∧
             h'' !! ob_storage copy = Some (OStorage (<[i := v]> buf)) ∧
             h'' !! ob_storage param = Some (OStorage buf).
Proof.
  intros Hp Hmemo Hk.
  destruct (deepcopy_miss h self memo param buf tg m mm Hp Hmemo Hk)
    as (d & s & cl & r & Hd & Hs & Hcl & Hr & Hscl & Hsr & E).
  destruct Hp as (Hself & Hbuf & Htags & Htg).
  eexists r, _, _. split; [exact E|]. split; [done|].
  assert (Hr' : ∀ X, <[memo := X]> (<[r := OTensor (mk_tensor (ob_type param)
             s (ob_sizes param) (ob_strides param) (ob_requires_grad param)
             {["tags" := VRef tg]})]>
           (<[cl := OTensor (mk_tensor cls_Tensor s (ob_sizes param)
                               (ob_strides param) false ∅)]>
            (<[s := OStorage buf]>
             (<[d := OTensor (data_tensor param)]> h)))) !! r =
        Some (OTensor (mk_tensor (ob_type param) s (ob_sizes param)
             (ob_strides param) (ob_requires_grad param)
             {["tags" := VRef tg]}))) by (intros; look).
  split; [apply Hr'|]. split; [look|]. cbn.
  do 4 (split; [done|]). split; [apply lookup_singleton_eq|].
  split; [done|]. split; [fresh_ne|]. split; [look|]. split; [look|].
  intros i v Hi. eexists. split.
  - apply storage_write_Ok with (buf := buf); [apply Hr' | cbn; look | done].
  - cbn. split; look.
Qed.

Lemma deepcopy_copies_witness :
  ∃ r h' copy,
    nn_Parameter.__deepcopy__ 5%positive 7%positive Sample.h_params =
      Ok (VRef r) h' ∧
    Sample.h_params !! r = None ∧
    h' !! r = Some (OTensor copy) ∧
    h' !! 5%positive = Some (OTensor Sample.tagged) ∧
    ob_type copy = cls_Parameter ∧
    ob_sizes copy = [3%nat] ∧
    ob_strides copy = [1%nat] ∧
    ob_requires_grad copy = true ∧
    ob_dict copy !! "tags" = Some (VRef 3%positive) ∧
    Sample.h_params !! ob_storage copy = None ∧
    ob_storage copy ≠ 1%positive ∧
    h' !! ob_storage copy = Some (OStorage Sample.weights) ∧
    h' !! 1%positive = Some (OStorage Sample.weights) ∧
    ∀ i v, (i < 3)%nat →
      ∃ h'', torch.storage_write r i v h' = Ok tt h'' ∧
             h'' !! ob_storage copy =
               Some (OStorage (<[i := v]> Sample.weights)) ∧
             h'' !! 1%positive = Some (OStorage Sample.weights).
Proof.
  apply (deepcopy_copies Sample.h_params 5%positive 7%positive Sample.tagged
           Sample.weights 3%positive Sample.optim ∅).
  - repeat split; reflexivity.
  - reflexivity.
  - reflexivity.
Defined.

(** C6: when the identity of [self] is a key of the memo, [__deepcopy__]
    answers the value the memo holds under it and changes nothing.  When
    it is not, the call answers a new object, the copy of [self] on a
    storage of its own, and the memo holds that very object under the
    identity of [self] afterwards.  Hence two deep copies of one Parameter
    through one memo answer the same object, whether the memo knew the
    Parameter before the first one or not. *)
Theorem deepcopy_memoised (h : heap) (self memo : addr) (param : tensor_obj)
  (buf : list Z) (tg : addr) (m mm : gmap key pyval) :
  is_parameter h self param buf tg m →
  h !! memo = Some (ODict mm) →
  (∀ v, mm !! KInt (py_id self) = Some v →
        nn_Parameter.__deepcopy__ self memo h = Ok v h) ∧
  ∃ v h' mm',
    nn_Parameter.__deepcopy__ self memo h = Ok v h' ∧
    h' !! memo = Some (ODict mm') ∧
    mm' !! KInt (py_id self) = Some v ∧
    nn_Parameter.__deepcopy__ self memo h' = Ok v h' ∧
    (mm !! KInt (py_id self) = None →
       ∃ r s,
         v = VRef r ∧ r ≠ self ∧ h !! r = None ∧ h !! s = None ∧
         h' !! r =
           Some (OTensor (mk_tensor (ob_type param) s (ob_sizes param)
                            (ob_strides param) (ob_requires_grad param)
                            {["tags" := VRef tg]})) ∧
         h' !! s = Some (OStorage buf)).
Proof.
  intros Hp Hmemo. split.
  - intros v Hk. by apply deepcopy_hit with mm.
  - destruct (mm !! KInt (py_id self)) as [v|] eqn:Hk.
    + exists v, h, mm. split; [by apply deepcopy_hit with mm|].
      split; [done|]. split; [done|].
      split; [by apply deepcopy_hit with mm|done].
    + destruct (deepcopy_miss h self memo param buf tg m mm Hp Hmemo Hk)
        as (d & s & cl & r & Hd & Hs & Hcl & Hr & Hscl & Hsr & E).
      destruct Hp as (Hself & Hbuf & Htags & Htg).
      eexists (VRef r), _, _. split; [exact E|].
      split; [apply lookup_insert_eq|]. split; [apply lookup_insert_eq|].
      split.
      { eapply deepcopy_hit; [apply lookup_insert_eq|apply lookup_insert_eq]. }
      intros _. exists r, s. split; [done|]. split; [fresh_ne|].
      split; [done|]. split; [done|]. split; look.
Qed.

Lemma deepcopy_memoised_witness :
  nn_Parameter.__deepcopy__ 5%positive 7%positive Sample.h_memo =
    Ok (VRef 6%positive) Sample.h_memo ∧
  ∃ r s h' mm',
    nn_Parameter.__deepcopy__ 5%positive 7%positive Sample.h_params =
      Ok (VRef r) h' ∧
    h' !! 7%positive = Some (ODict mm') ∧
    mm' !! KInt 5 = Some (VRef r) ∧
    nn_Parameter.__deepcopy__ 5%positive 7%positive h' = Ok (VRef r) h' ∧
    r ≠ 5%positive ∧
    Sample.h_params !! r = None ∧
    Sample.h_params !! s = None ∧
    h' !! r = Some (OTensor (mk_tensor cls_Parameter s [3%nat] [1%nat] true
                                       {["tags" := VRef 3%positive]})) ∧
    h' !! s = Some (OStorage Sample.weights).
Proof.
  split.
  - apply (proj1 (deepcopy_memoised Sample.h_memo 5%positive 7%positive
                    Sample.tagged Sample.weights 3%positive Sample.optim
                    {[ KInt 5 := VRef 6%positive ]}
                    ltac:(repeat split; reflexivity) eq_refl)).
    reflexivity.
  - destruct (proj2 (deepcopy_memoised Sample.h_params 5%positive 7%positive
                       Sample.tagged Sample.weights 3%positive Sample.optim ∅
                       ltac:(repeat split; reflexivity) eq_refl))
      as (v & h' & mm' & E1 & Hm & Hk & E2 & Hnew).
    destruct (Hnew eq_refl) as (r & s & -> & Hne & Hr & Hs & Hr' & Hs').
    exists r, s, h', mm'. split; [exact E1|]. split; [exact Hm|].
    split; [exact Hk|]. split; [exact E2|]. split; [exact Hne|]. split; [exact Hr|].
    split; [exact Hs|]. split; [exact Hr'|exact Hs'].
Defined.

(** C8: the effect of [__deepcopy__] on the memo.  When the identity of
    [self] is a key already, the heap, and the memo with it, is left as it
    was.  When it is not, the memo gains one entry, which maps the identity
    of [self] to the object the call answers, the new copy of [self] on a
    storage of its own, and keeps every other entry. *)
Theorem deepcopy_memo_effect (h : heap) (self memo : addr)
  (param : tensor_obj) (buf : list Z) (tg : addr) (m mm : gmap key pyval) :
  is_parameter h self param buf tg m →
  h !! memo = Some (ODict mm) →
  ∃ v h' mm',
    nn_Parameter.__deepcopy__ self memo h = Ok v h' ∧
    h' !! memo = Some (ODict mm') ∧
    match mm !! KInt (py_id self) with
    | Some _ => h' = h ∧ mm' = mm
    | None =>
        (∃ r s,
           v = VRef r ∧ r ≠ self ∧ h !! r = None ∧ h !! s = None ∧
           h' !! r =
             Some (OTensor (mk_tensor (ob_type param) s (ob_sizes param)
                              (ob_strides param) (ob_requires_grad param)
                              {["tags" := VRef tg]})) ∧
           h' !! s = Some (OStorage buf)) ∧
        mm' = <[KInt (py_id self) := v]> mm ∧
        mm' !! KInt (py_id self) = Some v ∧
        size mm' = S (size mm) ∧
        ∀ k, k ≠ KInt (py_id self) → mm' !! k = mm !! k
    end.
Proof.
  intros Hp Hmemo.
  destruct (mm !! KInt (py_id self)) as [v|] eqn:Hk.
  - exists v, h, mm. split; [by apply deepcopy_hit with mm|]. done.
  - destruct (deepcopy_miss h self memo param buf tg m mm Hp Hmemo Hk)
      as (d & s & cl & r & Hd & Hs & Hcl & Hr & Hscl & Hsr & E).
    destruct Hp as (Hself & Hbuf & Htags & Htg).
    eexists (VRef r), _, _. split; [exact E|].
    split; [apply lookup_insert_eq|].
    split; [|split; [done|split; [apply lookup_insert_eq|split]]].
    + exists r, s. split; [done|]. split; [fresh_ne|].
      split; [done|]. split; [done|]. split; look.
    + by apply map_size_insert_None.
    + intros k Hne. by rewrite lookup_insert_ne.
Qed.

Lemma deepcopy_memo_effect_witness :
  (∃ v h' mm',
     nn_Parameter.__deepcopy__ 5%positive 7%positive Sample.h_memo =
       Ok v h' ∧
     h' !! 7%positive = Some (ODict mm') ∧
     h' = Sample.h_memo ∧ mm' = {[ KInt 5 := VRef 6%positive ]}) ∧
  (∃ v h' mm',
     nn_Parameter.__deepcopy__ 5%positive 7%positive Sample.h_params =
       Ok v h' ∧
     h' !! 7%positive = Some (ODict mm') ∧
     (∃ r s,
        v = VRef r ∧ r ≠ 5%positive ∧
        Sample.h_params !! r = None ∧ Sample.h_params !! s = None ∧
        h' !! r =
          Some (OTensor (mk_tensor cls_Parameter s [3%nat] [1%nat] true
                                   {["tags" := VRef 3%positive]})) ∧
        h' !! s = Some (OStorage Sample.weights)) ∧
     mm' = <[KInt 5 := v]> ∅ ∧
     mm' !! KInt 5 = Some v ∧
     size mm' = 1%nat ∧
     ∀ k, k ≠ KInt 5 → mm' !! k = (∅ : gmap key pyval) !! k).
Proof.
  split.
  - exact (deepcopy_memo_effect Sample.h_memo 5%positive 7%positive
             Sample.tagged Sample.weights 3%positive Sample.optim
             {[ KInt 5 := VRef 6%positive ]}
             ltac:(repeat split; reflexivity) eq_refl).
  - exact (deepcopy_memo_effect Sample.h_params 5%positive 7%positive
             Sample.tagged Sample.weights 3%positive Sample.optim ∅
             ltac:(repeat split; reflexivity) eq_refl).
Defined.

(** ** Serialization *)

Lemma reduce_ex_spec h self param buf tg m proto :
  is_parameter h self param buf tg m →
  ∃ d hooks, h !! d = None ∧ h !! hooks = None ∧ d ≠ hooks ∧
    nn_Parameter.__reduce_ex__ self proto h =
    Ok (VTuple [VFun fn_rebuild_parameter;
                VTuple ([VRef d; VBool (ob_requires_grad param); VRef hooks]
                        ++ if bool_decide (m = ∅) then [] else [VRef tg])])
       (<[hooks := OOrderedDict []]>
        (<[d := OTensor (data_tensor param)]> h)).
Proof.
  intros (Hself & Hbuf & Htags & Htg).
  destruct (data_spec h self param Hself) as (d & Hd & Ed).
  destruct (alloc_ok (OOrderedDict []) (<[d := OTensor (data_tensor param)]> h))
    as (hooks & Hhooks & Ehooks).
  apply lookup_insert_None in Hhooks as [Hhooks Hne].
  exists d, hooks. do 3 (split; [done|]).
  unfold nn_Parameter.__reduce_ex__.
  mstep ltac:(by apply getattr_Ok with (t := param)).
  mstep ltac:(by apply truthy_dict).
  destruct (bool_decide (m = ∅)); cbn [negb].
  - mstep ltac:(exact Ed).
    mstep ltac:(apply requires_grad_Ok with (t := param); look).
    mstep ltac:(exact Ehooks). reflexivity.
  - mstep ltac:(exact Ed).
    mstep ltac:(apply requires_grad_Ok with (t := param); look).
    mstep ltac:(exact Ehooks).
    mstep ltac:(apply getattr_Ok with (t := param); [look|done]).
    reflexivity.
Qed.

(** C1: the recipe of a Parameter is the reconstruction function with an
    argument tuple of exactly three components, [data], [requires_grad] and
    an empty ordered mapping, when the [tags] dictionary is empty, and of
    exactly four, the fourth being the reference to the [tags] dictionary,
    when it is not. *)
Theorem reduce_ex_arity (h : heap) (self : addr) (param : tensor_obj)
  (buf : list Z) (tg : addr) (m : gmap key pyval) (proto : pyval) :
  is_parameter h self param buf tg m →
  ∃ d hooks args h',
    nn_Parameter.__reduce_ex__ self proto h =
      Ok (VTuple [VFun fn_rebuild_parameter; VTuple args]) h' ∧
    h' !! d = Some (OTensor (data_tensor param)) ∧
    h' !! hooks = Some (OOrderedDict []) ∧
    h' !! tg = Some (ODict m) ∧
    (m = ∅ →
       length args = 3%nat ∧
       args = [VRef d; VBool (ob_requires_grad param); VRef hooks]) ∧
    (m ≠ ∅ →
       length args = 4%nat ∧
       args = [VRef d; VBool (ob_requires_grad param); VRef hooks; VRef tg]).
Proof.
  intros Hp.
  destruct (reduce_ex_spec h self param buf tg m proto Hp)
    as (d & hooks & Hd & Hhooks & Hne & E).
  destruct Hp as (Hself & Hbuf & Htags & Htg).
  eexists d, hooks, _, _. split; [exact E|].
  split; [look|]. split; [look|]. split; [look|].
  split; intros Hm.
  - by rewrite bool_decide_eq_true_2.
  - by rewrite bool_decide_eq_false_2.
Qed.

Lemma reduce_ex_arity_witness :
  ∃ d hooks args h',
    nn_Parameter.__reduce_ex__ 5%positive (VInt 2) Sample.h_params =
      Ok (VTuple [VFun fn_rebuild_parameter; VTuple args]) h' ∧
    h' !! d = Some (OTensor (data_tensor Sample.tagged)) ∧
    h' !! hooks = Some (OOrderedDict []) ∧
    h' !! 3%positive = Some (ODict Sample.optim) ∧
    (Sample.optim = ∅ →
       length args = 3%nat ∧ args = [VRef d; VBool true; VRef hooks]) ∧
    (Sample.optim ≠ ∅ →
       length args = 4%nat ∧
       args = [VRef d; VBool true; VRef hooks; VRef 3%positive]).
Proof.
  apply (reduce_ex_arity Sample.h_params 5%positive Sample.tagged
           Sample.weights 3%positive Sample.optim (VInt 2)).
  repeat split; reflexivity.
Defined.

(** C7: replaying the recipe of a Parameter rebuilds a new Parameter on
    the storage of the original, with its layout and its [requires_grad]
    flag; from the recipe of four arguments its [tags] attribute is the
    reference the original holds, and from the recipe of three it is an
    empty dictionary, as the original's is.  The original is left as it
    was. *)
Theorem reduce_replay_roundtrip (h : heap) (self : addr) (param : tensor_obj)
  (buf : list Z) (tg : addr) (m : gmap key pyval) (proto : pyval) :
  is_parameter h self param buf tg m →
  ∃ recipe h1 q h2 rebuilt,
    nn_Parameter.__reduce_ex__ self proto h = Ok recipe h1 ∧
    replay recipe h1 = Ok (VRef q) h2 ∧
    h !! q = None ∧
    h2 !! q = Some (OTensor rebuilt) ∧
    h2 !! self = Some (OTensor param) ∧
    ob_type rebuilt = cls_Parameter ∧
    ob_storage rebuilt = ob_storage param ∧
    ob_sizes rebuilt = ob_sizes param ∧
    ob_strides rebuilt = ob_strides param ∧
    h2 !! ob_storage rebuilt = Some (OStorage buf) ∧
    ob_requires_grad rebuilt = ob_requires_grad param ∧
    (m ≠ ∅ →
       ob_dict rebuilt !! "tags" = Some (VRef tg) ∧
       h2 !! tg = Some (ODict m)) ∧
    (m = ∅ →
       ∃ tg', ob_dict rebuilt !! "tags" = Some (VRef tg') ∧
              h2 !! tg' = Some (ODict m)).
Proof.
  intros Hp.
  destruct (reduce_ex_spec h self param buf tg m proto Hp)
    as (d & hooks & Hd & Hhooks & Hne & E).
  destruct Hp as (Hself & Hbuf & Htags & Htg).
  set (h1 := <[hooks := OOrderedDict []]>
             (<[d := OTensor (data_tensor param)]> h)) in *.
  assert (Hd1 : h1 !! d = Some (OTensor (data_tensor param)))
    by (unfold h1; look).
  destruct (bool_decide (m = ∅)) eqn:Hm; cbn [app] in E.
  - apply bool_decide_eq_true_1 in Hm.
    destruct (new_ref_spec h1 cls_Parameter d (data_tensor param)
                (ob_requires_grad param) VNone Hd1)
      as (q & tg' & Hq & Htg' & Hqtg & EN).
    cbn [is_None] in EN. unfold h1 in Hq, Htg'.
    apply lookup_insert_None in Hq as [Hq Hhq].
    apply lookup_insert_None in Hq as [Hq Hdq].
    apply lookup_insert_None in Htg' as [Htg' Hhtg].
    apply lookup_insert_None in Htg' as [Htg' Hdtg].
    eexists _, h1, q, _, _. split; [exact E|]. split.
    { cbn. mstep ltac:(exact EN). mstep ltac:(apply setattr_Ok; look).
      reflexivity. }
    split; [done|]. split; [look|]. split; [unfold h1; look|]. cbn.
    do 4 (split; [done|]). split; [unfold h1; look|]. split; [done|].
    split; [done|]. intros _. exists tg'.
    split; [by rewrite lookup_insert_ne|]. subst m. look.
  - apply bool_decide_eq_false_1 in Hm.
    destruct (new_ref_spec h1 cls_Parameter d (data_tensor param)
                (ob_requires_grad param) (VRef tg) Hd1)
      as (q & tg' & Hq & _ & _ & EN).
    cbn [is_None] in EN. unfold h1 in Hq.
    apply lookup_insert_None in Hq as [Hq Hhq].
    apply lookup_insert_None in Hq as [Hq Hdq].
    eexists _, h1, q, _, _. split; [exact E|]. split.
    { cbn. mstep ltac:(exact EN). mstep ltac:(apply setattr_Ok; look).
      reflexivity. }
    split; [done|]. split; [look|]. split; [unfold h1; look|]. cbn.
    do 4 (split; [done|]). split; [unfold h1; look|]. split; [done|].
    split; [|done]. intros _.
    split; [by rewrite lookup_insert_ne|]. unfold h1. look.
Qed.

Lemma reduce_replay_roundtrip_witness :
  ∃ recipe h1 q h2 rebuilt,
    nn_Parameter.__reduce_ex__ 6%positive (VInt 2) Sample.h_params =
      Ok recipe h1 ∧
    replay recipe h1 = Ok (VRef q) h2 ∧
    Sample.h_params !! q = None ∧
    h2 !! q = Some (OTensor rebuilt) ∧
    h2 !! 6%positive = Some (OTensor Sample.untagged) ∧
    ob_type rebuilt = cls_Parameter ∧
    ob_storage rebuilt = 1%positive ∧
    ob_sizes rebuilt = [3%nat] ∧
    ob_strides rebuilt = [1%nat] ∧
    h2 !! ob_storage rebuilt = Some (OStorage Sample.weights) ∧
    ob_requires_grad rebuilt = true ∧
    ((∅ : gmap key pyval) ≠ ∅ →
       ob_dict rebuilt !! "tags" = Some (VRef 4%positive) ∧
       h2 !! 4%positive = Some (ODict ∅)) ∧
    ((∅ : gmap key pyval) = ∅ →
       ∃ tg', ob_dict rebuilt !! "tags" = Some (VRef tg') ∧
              h2 !! tg' = Some (ODict ∅)).
Proof.
  apply (reduce_replay_roundtrip Sample.h_params 6%positive Sample.untagged
           Sample.weights 4%positive ∅ (VInt 2)).
  repeat split; reflexivity.
Defined.

(** ** Display *)

Lemma prefix_app (a s : string) : String.prefix a (a ++ s) = true.
Proof.
  induction a as [|c a IH].
  - by destruct s.
  - change (String c a ++ s) with (String c (a ++ s)). simpl.
    destruct (Ascii.ascii_dec c c); [exact IH|done].
Qed.

Lemma substring_all (s : string) : substring 0 (String.length s) s = s.
Proof. induction s as [|c s IH]; simpl; [done|]. by rewrite IH. Qed.

Lemma substring_app (a s : string) :
  substring (String.length a) (String.length s) (a ++ s) = s.
Proof.
  induction a as [|c a IH].
  - apply substring_all.
  - change (String c a ++ s) with (String c (a ++ s)). exact IH.
Qed.

(** C9: where the tensor engine's formatter prints [self] as [s] and
    changes nothing, the representation of the Parameter is the text
    [Parameter containing:], a line break, and then [s]; it begins with
    that banner line, what follows its 22 characters is [s], and producing
    it changes nothing either. *)
Theorem repr_banner (Tensor___repr__ : addr → M string) (self : addr)
  (h : heap) (s : string) :
  Tensor___repr__ self h = Ok s h →
  ∃ out,
    nn_Parameter.__repr__ Tensor___repr__ self h = Ok out h ∧
    out = "Parameter containing:" ++ String "010"%char s ∧
    String.prefix ("Parameter containing:" ++ String "010"%char "") out
      = true ∧
    substring 22 (String.length s) out = s ∧
    out = nn_Parameter.banner ++ s.
Proof.
  intros Hfmt. exists (nn_Parameter.banner ++ s). split; [|split; [|split]].
  - unfold nn_Parameter.__repr__. by mstep ltac:(exact Hfmt).
  - reflexivity.
  - exact (prefix_app nn_Parameter.banner s).
  - split; [|reflexivity]. exact (substring_app nn_Parameter.banner s).
Qed.

Lemma repr_banner_witness :
  ∃ out,
    nn_Parameter.__repr__ Sample.show_flag 5%positive Sample.h_params =
      Ok out Sample.h_params ∧
    out = "Parameter containing:" ++
          String "010"%char "tensor(..., requires_grad=True)" ∧
    String.prefix ("Parameter containing:" ++ String "010"%char "") out
      = true ∧
    substring 22 (String.length "tensor(..., requires_grad=True)") out =
      "tensor(..., requires_grad=True)" ∧
    out = nn_Parameter.banner ++ "tensor(..., requires_grad=True)".
Proof.
  apply (repr_banner Sample.show_flag 5%positive Sample.h_params
           "tensor(..., requires_grad=True)").
  reflexivity.
Defined.

(** ** The persisted snapshot *)

Lemma same_but_tags_refl (o : object) : same_but_tags o o.
Proof. destruct o; cbn; done. Qed.

Lemma agree_refl (h : heap) : agree_up_to_tags h h.
Proof. intros a. destruct (h !! a); [apply same_but_tags_refl|done]. Qed.

Lemma agree_insert (h h' : heap) (a : addr) (o o' : object) :
  agree_up_to_tags h h' → h' !! a = Some o →
  (∀ x, same_but_tags x o → same_but_tags x o') →
  agree_up_to_tags h (<[a := o']> h').
Proof.
  intros Hag Ha Htrans b. specialize (Hag b).
  destruct (decide (b = a)) as [->|Hne].
  - rewrite lookup_insert_eq. rewrite Ha in Hag.
    destruct (h !! a); [by apply Htrans|done].
  - by rewrite lookup_insert_ne.
Qed.

(** Assigning the [tags] attribute of a tensor object, or any other of its
    attributes, keeps the heaps in agreement. *)
Lemma agree_set_attrs (h h' : heap) (a : addr) (t : tensor_obj)
  (attrs : gmap string pyval) :
  agree_up_to_tags h h' → h' !! a = Some (OTensor t) →
  agree_up_to_tags h
    (<[a := OTensor (mk_tensor (ob_type t) (ob_storage t) (ob_sizes t)
                       (ob_strides t) (ob_requires_grad t) attrs)]> h').
Proof.
  intros Hag Ha. eapply agree_insert; [done|done|].
  intros [| t' | |]; cbn; try done.
Qed.

(** So does any change of the contents of a dictionary. *)
Lemma agree_set_dict (h h' : heap) (a : addr) (d d' : gmap key pyval) :
  agree_up_to_tags h h' → h' !! a = Some (ODict d) →
  agree_up_to_tags h (<[a := ODict d']> h').
Proof.
  intros Hag Ha. eapply agree_insert; [done|done|].
  intros [| | |]; cbn; done.
Qed.

Lemma persist_agree (h h' : heap) (p : addr) :
  agree_up_to_tags h h' → nn_Module.persist h p = nn_Module.persist h' p.
Proof.
  intros Hag. unfold nn_Module.persist. pose proof (Hag p) as Hp.
  destruct (h !! p) as [[| t | |]|], (h' !! p) as [[| t' | |]|];
    cbn in Hp; try done.
  destruct Hp as (_ & Hst & Hsz & Hsd & Hrg).
  pose proof (Hag (ob_storage t)) as Hs. rewrite <- Hst.
  destruct (h !! ob_storage t) as [[| | |]|],
           (h' !! ob_storage t) as [[| | |]|]; cbn in Hs; try done.
  by rewrite Hs, Hsz, Hsd, Hrg.
Qed.

(** C10: the snapshot of the parameters a module holds is the same in two
    heaps that differ at most in what the [tags] attributes refer to and
    in what dictionaries contain: no tag is part of it, only the layout
    and the elements of [data] and the [requires_grad] flag are. *)
Theorem state_dict_ignores_tags (h h' : heap)
  (params : list (string * addr)) :
  agree_up_to_tags h h' →
  nn_Module.state_dict h params = nn_Module.state_dict h' params.
Proof.
  intros Hag. induction params as [|[name p] rest IH]; cbn; [done|].
  by rewrite (persist_agree h h' p Hag), IH.
Qed.

Lemma state_dict_ignores_tags_witness :
  nn_Module.state_dict Sample.h_params
    [("weight", 5%positive); ("bias", 6%positive)] =
  nn_Module.state_dict Sample.h_retagged
    [("weight", 5%positive); ("bias", 6%positive)].
Proof.
  apply (state_dict_ignores_tags Sample.h_params Sample.h_retagged).
  apply (agree_set_attrs _ _ 5%positive Sample.tagged); [|reflexivity].
  apply (agree_set_dict _ _ 4%positive ∅); [|reflexivity].
  apply agree_refl.
Defined.

(** The snapshot of the sample module, in full. *)
Example state_dict_sample :
  nn_Module.state_dict Sample.h_params
    [("weight", 5%positive); ("bias", 6%positive)] =
  Some [("weight", nn_Module.mk_persisted [3%nat] [1%nat] Sample.weights true);
        ("bias", nn_Module.mk_persisted [3%nat] [1%nat] Sample.weights true)].
Proof. reflexivity. Qed.

(** ** Runs on the sample heaps *)

(** [Parameter()] in the empty heap: an empty storage, the empty tensor,
    the Parameter on it and its new [tags] dictionary. *)
Example run_new_default :
  nn_Parameter.__new__ cls_Parameter VNone true VNone ∅ =
  Ok 3%positive
     {[ 1%positive := OStorage [];
        2%positive := OTensor (mk_tensor cls_Tensor 1%positive [0%nat]
                                         [1%nat] false ∅);
        3%positive := OTensor (mk_tensor cls_Parameter 1%positive [0%nat]
                                         [1%nat] true
                                         {["tags" := VRef 4%positive]});
        4%positive := ODict ∅ ]}.
Proof. reflexivity. Qed.

Example run_reduce_tagged :
  nn_Parameter.__reduce_ex__ 5%positive (VInt 2) Sample.h_params =
  Ok (VTuple [VFun fn_rebuild_parameter;
              VTuple [VRef 8%positive; VBool true; VRef 9%positive;
                      VRef 3%positive]])
     (<[9%positive := OOrderedDict []]>
      (<[8%positive := OTensor (data_tensor Sample.tagged)]>
       Sample.h_params)).
Proof. reflexivity. Qed.

Example run_reduce_untagged :
  nn_Parameter.__reduce_ex__ 6%positive (VInt 2) Sample.h_params =
  Ok (VTuple [VFun fn_rebuild_parameter;
              VTuple [VRef 8%positive; VBool true; VRef 9%positive]])
     (<[9%positive := OOrderedDict []]>
      (<[8%positive := OTensor (data_tensor Sample.untagged)]>
       Sample.h_params)).
Proof. reflexivity. Qed.

(** Two deep copies through one memo, then a third through a new one. *)
Example run_deepcopy_twice :
  answer ((x <- nn_Parameter.__deepcopy__ 5%positive 7%positive ;;
           y <- nn_Parameter.__deepcopy__ 5%positive 7%positive ;;
           memo <- dict_new ;;
           z <- nn_Parameter.__deepcopy__ 5%positive memo ;;
           ret (x, y, z)) Sample.h_params) =
  Some (VRef 11%positive, VRef 11%positive, VRef 16%positive).
Proof. reflexivity. Qed.

(** A memo that is no dictionary is refused. *)
Example run_deepcopy_bad_memo :
  nn_Parameter.__deepcopy__ 5%positive 1%positive Sample.h_params =
  Raise TypeError.
Proof. reflexivity. Qed.

Example run_repr :
  answer (nn_Parameter.__repr__ Sample.show_flag 5%positive Sample.h_params) =
  Some ("Parameter containing:" ++ String "010"%char
          "tensor(..., requires_grad=True)").
Proof. reflexivity. Qed.

(** ** Further properties of construction *)

(** X1: two Parameters constructed without [tags] get two dictionaries:
    both are empty, and an entry set in the first does not show in the
    second. *)
Theorem new_default_tags_not_shared (h : heap) (c1 c2 : cls) (d1 d2 : addr)
  (t1 t2 : tensor_obj) (g1 g2 : bool) :
  h !! d1 = Some (OTensor t1) →
  h !! d2 = Some (OTensor t2) →
  ∃ p1 p2 h2 tg1 tg2,
    (p1 <- nn_Parameter.__new__ c1 (VRef d1) g1 VNone ;;
     p2 <- nn_Parameter.__new__ c2 (VRef d2) g2 VNone ;;
     ret (p1, p2)) h = Ok (p1, p2) h2 ∧
    p1 ≠ p2 ∧
    getattr p1 "tags" h2 = Ok (VRef tg1) h2 ∧
    getattr p2 "tags" h2 = Ok (VRef tg2) h2 ∧
    tg1 ≠ tg2 ∧
    h2 !! tg1 = Some (ODict ∅) ∧
    h2 !! tg2 = Some (ODict ∅) ∧
    ∀ k v, ∃ h3, tags_setitem p1 k v h2 = Ok tt h3 ∧
                 tags_getitem p1 k h3 = Ok v h3 ∧
                 tags_getitem p2 k h3 = Raise KeyError.
Proof.
  intros Hd1 Hd2.
  destruct (new_ref_spec h c1 d1 t1 g1 VNone Hd1)
    as (p1 & tg1 & Hp1 & Htg1 & Hne1 & E1).
  cbn [is_None] in E1.
  set (o1 := new_tensor c1 t1 g1 (VRef tg1)) in *.
  set (h1 := <[p1 := OTensor o1]> (<[tg1 := ODict ∅]> h)) in *.
  destruct (new_ref_spec h1 c2 d2 t2 g2 VNone)
    as (p2 & tg2 & Hp2 & Htg2 & Hne2 & E2).
  { unfold h1. look. }
  cbn [is_None] in E2.
  set (o2 := new_tensor c2 t2 g2 (VRef tg2)) in *.
  unfold h1 in Hp2, Htg2.
  apply lookup_insert_None in Hp2 as [Hp2 Hp12].
  apply lookup_insert_None in Hp2 as [Hp2 Htp].
  apply lookup_insert_None in Htg2 as [Htg2 Hpt].
  apply lookup_insert_None in Htg2 as [Htg2 Htt].
  assert (L1 : ∀ X, <[p2 := OTensor o2]> (<[tg2 := X]> h1) !! p1 =
                    Some (OTensor o1)) by (intros; unfold h1; look).
  assert (L2 : ∀ X, <[p2 := OTensor o2]> (<[tg2 := X]> h1) !! p2 =
                    Some (OTensor o2)) by (intros; look).
  exists p1, p2, (<[p2 := OTensor o2]> (<[tg2 := ODict ∅]> h1)), tg1, tg2.
  split. { mstep ltac:(exact E1). mstep ltac:(exact E2). reflexivity. }
  split; [done|].
  split. { eapply getattr_Ok; [apply L1|apply lookup_singleton_eq]. }
  split. { eapply getattr_Ok; [apply L2|apply lookup_singleton_eq]. }
  split; [done|]. split; [unfold h1; look|]. split; [look|].
  intros k v. eexists. split; [|split].
  - unfold tags_setitem.
    mstep ltac:(eapply getattr_Ok; [apply L1|apply lookup_singleton_eq]).
    apply dict_setitem_Ok. unfold h1. look.
  - unfold tags_getitem.
    mstep ltac:(eapply getattr_Ok;
                [rewrite lookup_insert_ne by done; apply L1
                |apply lookup_singleton_eq]).
    eapply dict_getitem_Ok; apply lookup_insert_eq.
  - unfold tags_getitem.
    mstep ltac:(eapply getattr_Ok;
                [rewrite lookup_insert_ne by done; apply L2
                |apply lookup_singleton_eq]).
    unfold dict_getitem.
    mstep ltac:(apply get_dict_Ok with (m := ∅); look).
    by rewrite lookup_empty.
Qed.

Lemma new_default_tags_not_shared_witness :
  ∃ p1 p2 h2 tg1 tg2,
    (p1 <- nn_Parameter.__new__ cls_Parameter (VRef 2%positive) true VNone ;;
     p2 <- nn_Parameter.__new__ cls_Parameter (VRef 2%positive) false VNone ;;
     ret (p1, p2)) Sample.h_tensor = Ok (p1, p2) h2 ∧
    p1 ≠ p2 ∧
    getattr p1 "tags" h2 = Ok (VRef tg1) h2 ∧
    getattr p2 "tags" h2 = Ok (VRef tg2) h2 ∧
    tg1 ≠ tg2 ∧
    h2 !! tg1 = Some (ODict ∅) ∧
    h2 !! tg2 = Some (ODict ∅) ∧
    ∀ k v, ∃ h3, tags_setitem p1 k v h2 = Ok tt h3 ∧
                 tags_getitem p1 k h3 = Ok v h3 ∧
                 tags_getitem p2 k h3 = Raise KeyError.
Proof.
  apply (new_default_tags_not_shared Sample.h_tensor cls_Parameter
           cls_Parameter 2%positive 2%positive Sample.plain Sample.plain
           true false); reflexivity.
Defined.

(** The Parameter [__new__] has just built is one in the sense of
    [is_parameter], on the storage of the tensor it was built from. *)
Lemma new_is_parameter (h : heap) (p tg : addr) (c : cls) (t : tensor_obj)
  (g : bool) (buf : list Z) (m : gmap key pyval) :
  h !! p = None →
  h !! ob_storage t = Some (OStorage buf) →
  h !! tg = Some (ODict m) →
  is_parameter (<[p := OTensor (new_tensor c t g (VRef tg))]> h) p
               (new_tensor c t g (VRef tg)) buf tg m.
Proof.
  intros Hp Hbuf Htg. split; [look|]. cbn. split; [look|].
  split; [apply lookup_singleton_eq|look].
Qed.

(** X2: tags are read when the recipe is made, not when the Parameter is
    constructed.  A Parameter constructed without [tags] has a recipe of
    three arguments; once an entry has been set in its [tags] dictionary,
    its recipe has four, the fourth being that dictionary. *)
Theorem tags_set_later_are_serialized (h : heap) (c : cls) (d : addr)
  (t : tensor_obj) (buf : list Z) (g : bool) (k : key) (v proto : pyval) :
  h !! d = Some (OTensor t) →
  h !! ob_storage t = Some (OStorage buf) →
  ∃ p h1 tg h2,
    nn_Parameter.__new__ c (VRef d) g VNone h = Ok p h1 ∧
    (∃ recipe h', nn_Parameter.__reduce_ex__ p proto h1 = Ok recipe h' ∧
       ∃ a b, recipe_args recipe = Some [a; VBool g; b]) ∧
    tags_setitem p k v h1 = Ok tt h2 ∧
    getattr p "tags" h2 = Ok (VRef tg) h2 ∧
    h2 !! tg = Some (ODict {[k := v]}) ∧
    ∃ recipe h3, nn_Parameter.__reduce_ex__ p proto h2 = Ok recipe h3 ∧
       ∃ a b, recipe_args recipe = Some [a; VBool g; b; VRef tg].
Proof.
  intros Hd Hbuf.
  destruct (new_ref_spec h c d t g VNone Hd)
    as (p & tg & Hp & Htg & Hne & E).
  cbn [is_None] in E.
  set (o := new_tensor c t g (VRef tg)) in *.
  set (h0 := <[tg := ODict ∅]> h) in *.
  assert (Hp0 : h0 !! p = None) by (unfold h0; look).
  assert (Hbuf0 : h0 !! ob_storage t = Some (OStorage buf))
    by (unfold h0; look).
  pose proof (new_is_parameter h0 p tg c t g buf ∅ Hp0 Hbuf0
                ltac:(unfold h0; look)) as Hpar1.
  exists p, (<[p := OTensor o]> h0), tg,
         (<[tg := ODict (<[k := v]> ∅)]> (<[p := OTensor o]> h0)).
  split; [exact E|]. split; [|split; [|split; [|split]]].
  - destruct (reduce_ex_spec _ p o buf tg ∅ proto Hpar1)
      as (a & b & _ & _ & _ & ER).
    eexists _, _. split; [exact ER|]. by exists (VRef a), (VRef b).
  - unfold tags_setitem.
    mstep ltac:(eapply getattr_Ok; [look|apply lookup_singleton_eq]).
    apply dict_setitem_Ok. unfold h0. look.
  - eapply getattr_Ok; [look|apply lookup_singleton_eq].
  - rewrite insert_empty. look.
  - assert (Hpar2 : is_parameter
              (<[tg := ODict (<[k := v]> ∅)]> (<[p := OTensor o]> h0))
              p o buf tg (<[k := v]> ∅)).
    { split; [look|]. split; [cbn; unfold h0; look|].
      split; [apply lookup_singleton_eq|look]. }
    destruct (reduce_ex_spec _ p o buf tg _ proto Hpar2)
      as (a & b & _ & _ & _ & ER).
    rewrite bool_decide_eq_false_2 in ER by apply insert_non_empty.
    eexists _, _. split; [exact ER|]. by exists (VRef a), (VRef b).
Qed.

Lemma tags_set_later_are_serialized_witness :
  ∃ p h1 tg h2,
    nn_Parameter.__new__ cls_Parameter (VRef 2%positive) true VNone
      Sample.h_tensor = Ok p h1 ∧
    (∃ recipe h', nn_Parameter.__reduce_ex__ p (VInt 2) h1 = Ok recipe h' ∧
       ∃ a b, recipe_args recipe = Some [a; VBool true; b]) ∧
    tags_setitem p (KStr "optimizer") (VStr "adam") h1 = Ok tt h2 ∧
    getattr p "tags" h2 = Ok (VRef tg) h2 ∧
    h2 !! tg = Some (ODict {[KStr "optimizer" := VStr "adam"]}) ∧
    ∃ recipe h3, nn_Parameter.__reduce_ex__ p (VInt 2) h2 = Ok recipe h3 ∧
       ∃ a b, recipe_args recipe = Some [a; VBool true; b; VRef tg].
Proof.
  apply (tags_set_later_are_serialized Sample.h_tensor cls_Parameter
           2%positive Sample.plain Sample.weights true (KStr "optimizer")
           (VStr "adam") (VInt 2)); reflexivity.
Defined.

(** X3: a dictionary passed as [tags] reaches the recipe only if it is not
    empty when the recipe is made: constructing a Parameter with a
    dictionary and reducing it gives four arguments, the last being the
    dictionary that was passed, when it has an entry, and three when it
    has none, as for a Parameter constructed without [tags]. *)
Theorem new_then_reduce (h : heap) (c : cls) (d : addr) (t : tensor_obj)
  (buf : list Z) (g : bool) (tg : addr) (m : gmap key pyval)
  (proto : pyval) :
  h !! d = Some (OTensor t) →
  h !! ob_storage t = Some (OStorage buf) →
  h !! tg = Some (ODict m) →
  ∃ recipe h' a b,
    (p <- nn_Parameter.__new__ c (VRef d) g (VRef tg) ;;
     nn_Parameter.__reduce_ex__ p proto) h = Ok recipe h' ∧
    recipe_args recipe =
      Some (if bool_decide (m = ∅)
            then [a; VBool g; b]
            else [a; VBool g; b; VRef tg]) ∧
    h' !! tg = Some (ODict m).
Proof.
  intros Hd Hbuf Htg.
  destruct (new_ref_spec h c d t g (VRef tg) Hd)
    as (p & tg' & Hp & _ & _ & E).
  cbn [is_None] in E.
  pose proof (new_is_parameter h p tg c t g buf m Hp Hbuf Htg) as Hpar.
  destruct (reduce_ex_spec _ p _ buf tg m proto Hpar)
    as (a & b & Ha & Hb & Hab & ER).
  apply lookup_insert_None in Ha as [Ha Hpa].
  apply lookup_insert_None in Hb as [Hb Hpb].
  eexists _, _, (VRef a), (VRef b). split.
  { mstep ltac:(exact E). exact ER. }
  split; [by destruct (bool_decide (m = ∅))|]. look.
Qed.

Lemma new_then_reduce_witness :
  ∃ recipe h' a b,
    (p <- nn_Parameter.__new__ cls_Parameter (VRef 5%positive) false
            (VRef 4%positive) ;;
     nn_Parameter.__reduce_ex__ p (VInt 2)) Sample.h_params = Ok recipe h' ∧
    recipe_args recipe =
      Some (if bool_decide ((∅ : gmap key pyval) = ∅)
            then [a; VBool false; b]
            else [a; VBool false; b; VRef 4%positive]) ∧
    h' !! 4%positive = Some (ODict ∅).
Proof.
  apply (new_then_reduce Sample.h_params cls_Parameter 5%positive
           Sample.tagged Sample.weights false 4%positive ∅ (VInt 2));
    reflexivity.
Defined.

(** ** Further properties of deep copy *)

(** A deep copy that misses the memo, whatever the [tags] attribute holds:
    the copy [r], its storage [s], the dictionary [tg'] made when [tags] is
    [None], and what the call leaves of the heap it started from. *)
Lemma deepcopy_miss_summary h self memo param buf tags mm :
  has_tags h self param buf tags →
  h !! memo = Some (ODict mm) →
  mm !! KInt (py_id self) = None →
  ∃ r s tg' h',
    nn_Parameter.__deepcopy__ self memo h = Ok (VRef r) h' ∧
    h !! r = None ∧ h !! s = None ∧ h !! tg' = None ∧
    s ≠ r ∧ tg' ≠ r ∧ tg' ≠ s ∧
    h' !! r =
      Some (OTensor (mk_tensor (ob_type param) s (ob_sizes param)
                       (ob_strides param) (ob_requires_grad param)
                       {["tags" := if is_None tags then VRef tg'
                                   else tags]})) ∧
    h' !! s = Some (OStorage buf) ∧
    (is_None tags = true → h' !! tg' = Some (ODict ∅)) ∧
    h' !! memo = Some (ODict (<[KInt (py_id self) := VRef r]> mm)) ∧
    (∀ a o, a ≠ memo → h !! a = Some o → h' !! a = Some o).
Proof.
  intros (Hself & Hbuf & Htags) Hmemo Hk.
  destruct (data_spec h self param Hself) as (d & Hd & Ed).
  set (h1 := <[d := OTensor (data_tensor param)]> h) in *.
  destruct (clone_preserve_spec h1 d (data_tensor param) buf)
    as (s & cl & Hs & Hcl & Hscl & Ecl).
  { unfold h1. look. }
  { unfold h1. cbn. look. }
  cbn [data_tensor ob_sizes ob_strides ob_requires_grad] in Ecl.
  set (clone := mk_tensor cls_Tensor s (ob_sizes param) (ob_strides param)
                          false ∅) in *.
  set (h3 := <[cl := OTensor clone]> (<[s := OStorage buf]> h1)) in *.
  destruct (new_ref_spec h3 (ob_type param) cl clone (ob_requires_grad param)
              tags) as (r & tg' & Hr & Htg' & Hrtg & Er).
  { unfold h3. look. }
  apply lookup_insert_None in Hs as [Hs Hds].
  apply lookup_insert_None in Hcl as [Hcl Hdcl].
  unfold h3 in Hr, Htg'.
  apply lookup_insert_None in Hr as [Hr Hclr].
  apply lookup_insert_None in Hr as [Hr Hsr].
  apply lookup_insert_None in Hr as [Hr Hdr].
  apply lookup_insert_None in Htg' as [Htg' Hcltg].
  apply lookup_insert_None in Htg' as [Htg' Hstg].
  apply lookup_insert_None in Htg' as [Htg' Hdtg].
  set (h4 := if is_None tags then <[tg' := ODict ∅]> h3 else h3) in *.
  assert (Hframe : ∀ a o, h !! a = Some o → h4 !! a = Some o).
  { intros a o Ha. unfold h4, h3, h1. destruct (is_None tags); look. }
  eexists r, s, tg', _. split.
  { unfold nn_Parameter.__deepcopy__.
    mstep ltac:(by apply dict_contains_Ok).
    rewrite bool_decide_eq_false_2 by (rewrite Hk; by intros [? ?]).
    mstep ltac:(by apply py_type_Ok).
    mstep ltac:(exact Ed).
    mstep ltac:(exact Ecl).
    mstep ltac:(apply requires_grad_Ok with (t := param); unfold h3, h1; look).
    mstep ltac:(apply getattr_Ok with (t := param);
                [unfold h3, h1; look|done]).
    mstep ltac:(exact Er).
    mstep ltac:(apply dict_setitem_Ok with (m := mm);
                rewrite lookup_insert_ne by fresh_ne; by apply Hframe).
    reflexivity. }
  do 3 (split; [done|]). split; [done|]. split; [done|]. split; [done|].
  split; [look|]. split.
  { rewrite !lookup_insert_ne by (first [done | fresh_ne]).
    unfold h4, h3. destruct (is_None tags); look. }
  split.
  { intros Hnone. rewrite !lookup_insert_ne by (first [done | fresh_ne]).
    unfold h4. rewrite Hnone. look. }
  split; [look|].
  intros a o Hne Ha. rewrite lookup_insert_ne by done.
  rewrite lookup_insert_ne by fresh_ne. by apply Hframe.
Qed.

Lemma is_parameter_has_tags h self param buf tg m :
  is_parameter h self param buf tg m →
  has_tags h self param buf (VRef tg).
Proof. by intros (? & ? & ? & ?). Qed.

(** A Parameter is still one after a deep copy through [memo], of itself
    or of another object; only the contents of its [tags] dictionary may
    have changed, when that dictionary is the memo. *)
Lemma is_parameter_frame (h h' : heap) (memo : addr) (mm mm' : gmap key pyval)
  q pq bufq tgq mq :
  is_parameter h q pq bufq tgq mq →
  h !! memo = Some (ODict mm) →
  h' !! memo = Some (ODict mm') →
  (∀ a o, a ≠ memo → h !! a = Some o → h' !! a = Some o) →
  ∃ mq', is_parameter h' q pq bufq tgq mq' ∧
         (tgq ≠ memo → mq' = mq) ∧ (tgq = memo → mq' = mm').
Proof.
  intros (Hq & Hbuf & Htags & Htg) Hmemo Hmemo' Hframe.
  destruct (decide (tgq = memo)) as [->|Hne].
  - exists mm'. split; [|done].
    split; [apply Hframe; [fresh_ne|done]|].
    split; [apply Hframe; [fresh_ne|done]|done].
  - exists mq. split; [|done].
    split; [apply Hframe; [fresh_ne|done]|].
    split; [apply Hframe; [fresh_ne|done]|]. split; [done|].
    by apply Hframe.
Qed.

(** X4: a deep copy changes no object that was live before it other than
    the memo: the original, its storage, its [tags] dictionary and every
    other object are after the call what they were before. *)
Theorem deepcopy_changes_only_memo (h : heap) (self memo : addr)
  (param : tensor_obj) (buf : list Z) (tg : addr) (m mm : gmap key pyval) :
  is_parameter h self param buf tg m →
  h !! memo = Some (ODict mm) →
  ∃ v h',
    nn_Parameter.__deepcopy__ self memo h = Ok v h' ∧
    ∀ a o, a ≠ memo → h !! a = Some o → h' !! a = Some o.
Proof.
  intros Hp Hmemo.
  destruct (mm !! KInt (py_id self)) as [v|] eqn:Hk.
  - exists v, h. split; [by apply deepcopy_hit with mm|done].
  - destruct (deepcopy_miss_summary h self memo param buf (VRef tg) mm
                (is_parameter_has_tags _ _ _ _ _ _ Hp) Hmemo Hk)
      as (r & s & tg' & h' & E & _ & _ & _ & _ & _ & _ & _ & _ & _ & _ & Hfr).
    by exists (VRef r), h'.
Qed.

Lemma deepcopy_changes_only_memo_witness :
  ∃ v h',
    nn_Parameter.__deepcopy__ 5%positive 7%positive Sample.h_params =
      Ok v h' ∧
    ∀ a o, a ≠ 7%positive → Sample.h_params !! a = Some o →
           h' !! a = Some o.
Proof.
  apply (deepcopy_changes_only_memo Sample.h_params 5%positive 7%positive
           Sample.tagged Sample.weights 3%positive Sample.optim ∅).
  - repeat split; reflexivity.
  - reflexivity.
Defined.

(** X5: the copy and the original hold one [tags] dictionary: an entry set
    through the copy is read through the original, and an entry set
    through the original is read through the copy. *)
Theorem deepcopy_shares_tags (h : heap) (self memo : addr)
  (param : tensor_obj) (buf : list Z) (tg : addr) (m mm : gmap key pyval)
  (k : key) (v : pyval) :
  is_parameter h self param buf tg m →
  h !! memo = Some (ODict mm) →
  mm !! KInt (py_id self) = None →
  ∃ r h',
    nn_Parameter.__deepcopy__ self memo h = Ok (VRef r) h' ∧
    r ≠ self ∧
    (∃ h'', tags_setitem r k v h' = Ok tt h'' ∧
            tags_getitem self k h'' = Ok v h'') ∧
    (∃ h'', tags_setitem self k v h' = Ok tt h'' ∧
            tags_getitem r k h'' = Ok v h'').
Proof.
  intros Hp Hmemo Hk.
  destruct (deepcopy_miss_summary h self memo param buf (VRef tg) mm
              (is_parameter_has_tags _ _ _ _ _ _ Hp) Hmemo Hk)
    as (r & s & tg' & h' & E & Hr & Hs & _ & _ & _ & _ & Hr' & _ & _ &
        Hmemo' & Hfr).
  cbn [is_None] in Hr'.
  destruct (is_parameter_frame h h' memo mm _ self param buf tg m Hp Hmemo
              Hmemo' Hfr) as (m' & (Hself' & _ & Htags & Htg') & _).
  destruct Hp as (Hself & _ & _ & Htg).
  assert (Hrtg : r ≠ tg) by fresh_ne.
  assert (Hstg : self ≠ tg) by fresh_ne.
  exists r, h'. split; [exact E|]. split; [fresh_ne|].
  split; eexists; (split;
    [unfold tags_setitem;
     mstep ltac:(eapply getattr_Ok;
                 [eassumption|first [done|apply lookup_singleton_eq]]);
     by apply dict_setitem_Ok with (m := m')
    |unfold tags_getitem;
     mstep ltac:(eapply getattr_Ok;
                 [rewrite lookup_insert_ne by done; eassumption
                 |first [done|apply lookup_singleton_eq]]);
     eapply dict_getitem_Ok; apply lookup_insert_eq]).
Qed.

Lemma deepcopy_shares_tags_witness :
  ∃ r h',
    nn_Parameter.__deepcopy__ 5%positive 7%positive Sample.h_params =
      Ok (VRef r) h' ∧
    r ≠ 5%positive ∧
    (∃ h'', tags_setitem r (KStr "lr") (VInt 3) h' = Ok tt h'' ∧
            tags_getitem 5%positive (KStr "lr") h'' = Ok (VInt 3) h'') ∧
    (∃ h'', tags_setitem 5%positive (KStr "lr") (VInt 3) h' = Ok tt h'' ∧
            tags_getitem r (KStr "lr") h'' = Ok (VInt 3) h'').
Proof.
  apply (deepcopy_shares_tags Sample.h_params 5%positive 7%positive
           Sample.tagged Sample.weights 3%positive Sample.optim ∅
           (KStr "lr") (VInt 3)).
  - repeat split; reflexivity.
  - reflexivity.
  - reflexivity.
Defined.

(** X6: the memo is keyed by identity.  Two different Parameters copied
    through one memo give two different copies on two different storages,
    also when the two originals view one storage, and the memo then holds
    both copies, each under the identity of its original. *)
Theorem deepcopy_two_parameters (h : heap) (p q memo : addr)
  (pp pq : tensor_obj) (bufp bufq : list Z) (tgp tgq : addr)
  (mp mq mm : gmap key pyval) :
  is_parameter h p pp bufp tgp mp →
  is_parameter h q pq bufq tgq mq →
  p ≠ q →
  h !! memo = Some (ODict mm) →
  mm !! KInt (py_id p) = None →
  mm !! KInt (py_id q) = None →
  ∃ r1 r2 h2 c1 c2 mm2,
    (x <- nn_Parameter.__deepcopy__ p memo ;;
     y <- nn_Parameter.__deepcopy__ q memo ;;
     ret (x, y)) h = Ok (VRef r1, VRef r2) h2 ∧
    r1 ≠ r2 ∧
    h2 !! r1 = Some (OTensor c1) ∧
    h2 !! r2 = Some (OTensor c2) ∧
    ob_storage c1 ≠ ob_storage c2 ∧
    h2 !! ob_storage c1 = Some (OStorage bufp) ∧
    h2 !! ob_storage c2 = Some (OStorage bufq) ∧
    h2 !! memo = Some (ODict mm2) ∧
    mm2 !! KInt (py_id p) = Some (VRef r1) ∧
    mm2 !! KInt (py_id q) = Some (VRef r2) ∧
    size mm2 = S (S (size mm)).
Proof.
  intros Hp Hq Hpq Hmemo Hkp Hkq.
  destruct (deepcopy_miss_summary h p memo pp bufp (VRef tgp) mm
              (is_parameter_has_tags _ _ _ _ _ _ Hp) Hmemo Hkp)
    as (r1 & s1 & tg1 & h1 & E1 & Hr1 & Hs1 & _ & _ & _ & _ & Hr1' & Hs1' &
        _ & Hmemo1 & Hfr1).
  destruct (is_parameter_frame h h1 memo mm _ q pq bufq tgq mq Hq Hmemo
              Hmemo1 Hfr1) as (mq' & Hq1 & _).
  assert (Hkq1 : <[KInt (py_id p) := VRef r1]> mm !! KInt (py_id q) = None).
  { rewrite lookup_insert_ne; [done|]. intros [= ?]. done. }
  destruct (deepcopy_miss_summary h1 q memo pq bufq (VRef tgq) _
              (is_parameter_has_tags _ _ _ _ _ _ Hq1) Hmemo1 Hkq1)
    as (r2 & s2 & tg2 & h2 & E2 & Hr2 & Hs2 & _ & _ & _ & _ & Hr2' & Hs2' &
        _ & Hmemo2 & Hfr2).
  eexists r1, r2, h2, _, _, _. split.
  { mstep ltac:(exact E1). mstep ltac:(exact E2). reflexivity. }
  split; [fresh_ne|].
  split. { apply Hfr2; [fresh_ne|exact Hr1']. }
  split; [exact Hr2'|]. cbn.
  split; [fresh_ne|].
  split. { apply Hfr2; [fresh_ne|exact Hs1']. }
  split; [exact Hs2'|]. split; [exact Hmemo2|].
  split. { rewrite lookup_insert_ne; [apply lookup_insert_eq|].
           intros [= ?]. done. }
  split; [apply lookup_insert_eq|].
  rewrite map_size_insert_None by done.
  by rewrite map_size_insert_None.
Qed.

Lemma deepcopy_two_parameters_witness :
  ∃ r1 r2 h2 c1 c2 mm2,
    (x <- nn_Parameter.__deepcopy__ 5%positive 7%positive ;;
     y <- nn_Parameter.__deepcopy__ 6%positive 7%positive ;;
     ret (x, y)) Sample.h_params = Ok (VRef r1, VRef r2) h2 ∧
    r1 ≠ r2 ∧
    h2 !! r1 = Some (OTensor c1) ∧
    h2 !! r2 = Some (OTensor c2) ∧
    ob_storage c1 ≠ ob_storage c2 ∧
    h2 !! ob_storage c1 = Some (OStorage Sample.weights) ∧
    h2 !! ob_storage c2 = Some (OStorage Sample.weights) ∧
    h2 !! 7%positive = Some (ODict mm2) ∧
    mm2 !! KInt (py_id 5%positive) = Some (VRef r1) ∧
    mm2 !! KInt (py_id 6%positive) = Some (VRef r2) ∧
    size mm2 = S (S (size (∅ : gmap key pyval))).
Proof.
  apply (deepcopy_two_parameters Sample.h_params 5%positive 6%positive
           7%positive Sample.tagged Sample.untagged Sample.weights
           Sample.weights 3%positive 4%positive Sample.optim ∅ ∅).
  - repeat split; reflexivity.
  - repeat split; reflexivity.
  - discriminate.
  - reflexivity.
  - reflexivity.
  - reflexivity.
Defined.

(** X7: identity of the copies comes from the memo alone: one Parameter
    copied through two memos that do not know it gives two different
    copies on two different storages. *)
Theorem deepcopy_two_memos (h : heap) (self memo1 memo2 : addr)
  (param : tensor_obj) (buf : list Z) (tg : addr)
  (m mm1 mm2 : gmap key pyval) :
  is_parameter h self param buf tg m →
  memo1 ≠ memo2 →
  h !! memo1 = Some (ODict mm1) →
  h !! memo2 = Some (ODict mm2) →
  mm1 !! KInt (py_id self) = None →
  mm2 !! KInt (py_id self) = None →
  ∃ r1 r2 h2 c1 c2,
    (x <- nn_Parameter.__deepcopy__ self memo1 ;;
     y <- nn_Parameter.__deepcopy__ self memo2 ;;
     ret (x, y)) h = Ok (VRef r1, VRef r2) h2 ∧
    r1 ≠ r2 ∧
    h2 !! r1 = Some (OTensor c1) ∧
    h2 !! r2 = Some (OTensor c2) ∧
    ob_storage c1 ≠ ob_storage c2 ∧
    h2 !! ob_storage c1 = Some (OStorage buf) ∧
    h2 !! ob_storage c2 = Some (OStorage buf).
Proof.
  intros Hp Hne Hm1 Hm2 Hk1 Hk2.
  destruct (deepcopy_miss_summary h self memo1 param buf (VRef tg) mm1
              (is_parameter_has_tags _ _ _ _ _ _ Hp) Hm1 Hk1)
    as (r1 & s1 & tg1 & h1 & E1 & Hr1 & Hs1 & _ & _ & _ & _ & Hr1' & Hs1' &
        _ & Hmemo1 & Hfr1).
  destruct (is_parameter_frame h h1 memo1 mm1 _ self param buf tg m Hp Hm1
              Hmemo1 Hfr1) as (m' & Hp1 & _).
  assert (Hm2' : h1 !! memo2 = Some (ODict mm2)) by (by apply Hfr1).
  destruct (deepcopy_miss_summary h1 self memo2 param buf (VRef tg) mm2
              (is_parameter_has_tags _ _ _ _ _ _ Hp1) Hm2' Hk2)
    as (r2 & s2 & tg2 & h2 & E2 & Hr2 & Hs2 & _ & _ & _ & _ & Hr2' & Hs2' &
        _ & Hmemo2 & Hfr2).
  eexists r1, r2, h2, _, _. split.
  { mstep ltac:(exact E1). mstep ltac:(exact E2). reflexivity. }
  split; [fresh_ne|].
  split. { apply Hfr2; [fresh_ne|exact Hr1']. }
  split; [exact Hr2'|]. cbn.
  split; [fresh_ne|].
  split; [|exact Hs2']. apply Hfr2; [fresh_ne|exact Hs1'].
Qed.

Lemma deepcopy_two_memos_witness :
  ∃ r1 r2 h2 c1 c2,
    (x <- nn_Parameter.__deepcopy__ 5%positive 7%positive ;;
     y <- nn_Parameter.__deepcopy__ 5%positive 8%positive ;;
     ret (x, y)) Sample2.h_two_memos = Ok (VRef r1, VRef r2) h2 ∧
    r1 ≠ r2 ∧
    h2 !! r1 = Some (OTensor c1) ∧
    h2 !! r2 = Some (OTensor c2) ∧
    ob_storage c1 ≠ ob_storage c2 ∧
    h2 !! ob_storage c1 = Some (OStorage Sample.weights) ∧
    h2 !! ob_storage c2 = Some (OStorage Sample.weights).
Proof.
  apply (deepcopy_two_memos Sample2.h_two_memos 5%positive 7%positive
           8%positive Sample.tagged Sample.weights 3%positive Sample.optim
           ∅ ∅).
  - repeat split; reflexivity.
  - discriminate.
  - reflexivity.
  - reflexivity.
  - reflexivity.
  - reflexivity.
Defined.

(** X8: a deep copy is serialized like its original: made in the heap the
    copy left, the recipes of the original and of the copy have the same
    [requires_grad] argument and the same arguments after the third, that
    is, both have no tags argument or both have the one [tags]
    dictionary. *)
Theorem deepcopy_then_reduce (h : heap) (self memo : addr)
  (param : tensor_obj) (buf : list Z) (tg : addr) (m mm : gmap key pyval)
  (proto : pyval) :
  is_parameter h self param buf tg m →
  h !! memo = Some (ODict mm) →
  mm !! KInt (py_id self) = None →
  ∃ r h1 rec1 rec2 h2 h3 a1 b1 a2 b2 rest,
    nn_Parameter.__deepcopy__ self memo h = Ok (VRef r) h1 ∧
    nn_Parameter.__reduce_ex__ self proto h1 = Ok rec1 h2 ∧
    nn_Parameter.__reduce_ex__ r proto h1 = Ok rec2 h3 ∧
    recipe_args rec1 =
      Some (a1 :: VBool (ob_requires_grad param) :: b1 :: rest) ∧
    recipe_args rec2 =
      Some (a2 :: VBool (ob_requires_grad param) :: b2 :: rest) ∧
    (rest = [] ∨ rest = [VRef tg]).
Proof.
  intros Hp Hmemo Hk.
  destruct (deepcopy_miss_summary h self memo param buf (VRef tg) mm
              (is_parameter_has_tags _ _ _ _ _ _ Hp) Hmemo Hk)
    as (r & s & tg' & h1 & E & Hr & Hs & _ & _ & _ & _ & Hr' & Hs' & _ &
        Hmemo' & Hfr).
  cbn [is_None] in Hr'.
  destruct (is_parameter_frame h h1 memo mm _ self param buf tg m Hp Hmemo
              Hmemo' Hfr) as (m' & Hp1 & _).
  set (copy := mk_tensor (ob_type param) s (ob_sizes param)
                         (ob_strides param) (ob_requires_grad param)
                         {["tags" := VRef tg]}) in *.
  assert (Hc1 : is_parameter h1 r copy buf tg m').
  { destruct Hp1 as (_ & _ & _ & Htg1).
    split; [exact Hr'|]. split; [exact Hs'|].
    split; [apply lookup_singleton_eq|exact Htg1]. }
  destruct (reduce_ex_spec h1 self param buf tg m' proto Hp1)
    as (a1 & b1 & _ & _ & _ & ER1).
  destruct (reduce_ex_spec h1 r copy buf tg m' proto Hc1)
    as (a2 & b2 & _ & _ & _ & ER2).
  cbn [copy ob_requires_grad] in ER2.
  eexists r, h1, _, _, _, _, (VRef a1), (VRef b1), (VRef a2), (VRef b2), _.
  split; [exact E|]. split; [exact ER1|]. split; [exact ER2|].
  split; [reflexivity|]. split; [reflexivity|].
  destruct (bool_decide (m' = ∅)); [by left|by right].
Qed.

Lemma deepcopy_then_reduce_witness :
  ∃ r h1 rec1 rec2 h2 h3 a1 b1 a2 b2 rest,
    nn_Parameter.__deepcopy__ 5%positive 7%positive Sample.h_params =
      Ok (VRef r) h1 ∧
    nn_Parameter.__reduce_ex__ 5%positive (VInt 2) h1 = Ok rec1 h2 ∧
    nn_Parameter.__reduce_ex__ r (VInt 2) h1 = Ok rec2 h3 ∧
    recipe_args rec1 = Some (a1 :: VBool true :: b1 :: rest) ∧
    recipe_args rec2 = Some (a2 :: VBool true :: b2 :: rest) ∧
    (rest = [] ∨ rest = [VRef 3%positive]).
Proof.
  apply (deepcopy_then_reduce Sample.h_params 5%positive 7%positive
           Sample.tagged Sample.weights 3%positive Sample.optim ∅ (VInt 2)).
  - repeat split; reflexivity.
  - reflexivity.
  - reflexivity.
Defined.

(** ** Further properties of serialization *)

(** X9: making the recipe changes no live object, and hooks are never
    serialized: the first and third arguments are new objects, and the
    third is an empty ordered dictionary, which is not the one the
    [_backward_hooks] attribute of the Parameter refers to. *)
Theorem reduce_ex_fresh_hooks (h : heap) (self : addr) (param : tensor_obj)
  (buf : list Z) (tg : addr) (m : gmap key pyval) (proto : pyval) :
  is_parameter h self param buf tg m →
  ∃ recipe h' dta hooks rest,
    nn_Parameter.__reduce_ex__ self proto h = Ok recipe h' ∧
    recipe_args recipe =
      Some (VRef dta :: VBool (ob_requires_grad param) :: VRef hooks
            :: rest) ∧
    h !! dta = None ∧
    h !! hooks = None ∧
    h' !! hooks = Some (OOrderedDict []) ∧
    (∀ a o, h !! a = Some o → h' !! a = Some o) ∧
    (∀ bh, ob_dict param !! "_backward_hooks" = Some (VRef bh) →
           is_Some (h !! bh) → hooks ≠ bh).
Proof.
  intros Hp.
  destruct (reduce_ex_spec h self param buf tg m proto Hp)
    as (d & hooks & Hd & Hhooks & Hne & E).
  eexists _, _, d, hooks, _. split; [exact E|].
  split; [reflexivity|]. do 2 (split; [done|]). split; [look|]. split.
  - intros a o Ha. look.
  - intros bh _ [o Hbh]. fresh_ne.
Qed.

Lemma reduce_ex_fresh_hooks_witness :
  ∃ recipe h' dta hooks rest,
    nn_Parameter.__reduce_ex__ 4%positive (VInt 2) Sample2.h_hooked =
      Ok recipe h' ∧
    recipe_args recipe = Some (VRef dta :: VBool true :: VRef hooks :: rest) ∧
    Sample2.h_hooked !! dta = None ∧
    Sample2.h_hooked !! hooks = None ∧
    h' !! hooks = Some (OOrderedDict []) ∧
    (∀ a o, Sample2.h_hooked !! a = Some o → h' !! a = Some o) ∧
    (∀ bh, ob_dict Sample2.hooked !! "_backward_hooks" = Some (VRef bh) →
           is_Some (Sample2.h_hooked !! bh) → hooks ≠ bh).
Proof.
  apply (reduce_ex_fresh_hooks Sample2.h_hooked 4%positive Sample2.hooked
           Sample.weights 3%positive Sample.optim (VInt 2)).
  repeat split; reflexivity.
Defined.

(** ** Parameters without a tags dictionary *)

Lemma bind_Raise {A B} (m : M A) (f : A → M B) h e :
  m h = Raise e → bind m f h = Raise e.
Proof. unfold bind. by intros ->. Qed.

Lemma getattr_Raise h a t name :
  h !! a = Some (OTensor t) → ob_dict t !! name = None →
  getattr a name h = Raise AttributeError.
Proof.
  intros Ha Hv. unfold getattr. mstep ltac:(by apply get_tensor_Ok).
  by rewrite Hv.
Qed.

(** X10: a Parameter object that has no [tags] attribute cannot be
    serialized, and cannot be deep-copied unless the memo knows it: both
    methods raise [AttributeError] where they read [self.tags]; a deep
    copy that finds the object in the memo does not read it and
    succeeds. *)
Theorem no_tags_attribute (h : heap) (self memo : addr) (param : tensor_obj)
  (buf : list Z) (mm : gmap key pyval) (proto : pyval) :
  h !! self = Some (OTensor param) →
  h !! ob_storage param = Some (OStorage buf) →
  ob_dict param !! "tags" = None →
  h !! memo = Some (ODict mm) →
  nn_Parameter.__reduce_ex__ self proto h = Raise AttributeError ∧
  match mm !! KInt (py_id self) with
  | None => nn_Parameter.__deepcopy__ self memo h = Raise AttributeError
  | Some v => nn_Parameter.__deepcopy__ self memo h = Ok v h
  end.
Proof.
  intros Hself Hbuf Htags Hmemo. split.
  - unfold nn_Parameter.__reduce_ex__. apply bind_Raise.
    by apply getattr_Raise with param.
  - destruct (mm !! KInt (py_id self)) as [v|] eqn:Hk;
      [by apply deepcopy_hit with mm|].
    destruct (data_spec h self param Hself) as (d & Hd & Ed).
    set (h1 := <[d := OTensor (data_tensor param)]> h) in *.
    destruct (clone_preserve_spec h1 d (data_tensor param) buf)
      as (s & cl & Hs & Hcl & Hscl & Ecl).
    { unfold h1. look. }
    { unfold h1. cbn. look. }
    apply lookup_insert_None in Hs as [Hs Hds].
    apply lookup_insert_None in Hcl as [Hcl Hdcl].
    unfold nn_Parameter.__deepcopy__.
    mstep ltac:(by apply dict_contains_Ok).
    rewrite bool_decide_eq_false_2 by (rewrite Hk; by intros [? ?]).
    mstep ltac:(by apply py_type_Ok).
    mstep ltac:(exact Ed).
    mstep ltac:(exact Ecl).
    mstep ltac:(apply requires_grad_Ok with (t := param); unfold h1; look).
    apply bind_Raise. apply getattr_Raise with param; [unfold h1; look|done].
Qed.

Lemma no_tags_attribute_witness :
  nn_Parameter.__reduce_ex__ 2%positive (VInt 2) Sample2.h_bare =
    Raise AttributeError ∧
  match (∅ : gmap key pyval) !! KInt (py_id 2%positive) with
  | None => nn_Parameter.__deepcopy__ 2%positive 3%positive Sample2.h_bare =
              Raise AttributeError
  | Some v => nn_Parameter.__deepcopy__ 2%positive 3%positive Sample2.h_bare =
                Ok v Sample2.h_bare
  end.
Proof.
  apply (no_tags_attribute Sample2.h_bare 2%positive 3%positive Sample2.bare
           Sample.weights ∅ (VInt 2)); reflexivity.
Defined.

(** X11: a Parameter whose [tags] attribute is [None] is serialized with
    three arguments, and its deep copy does not hold [None]: the copy
    gets an empty dictionary of its own, which did not exist before, while
    the original keeps [None]. *)
Theorem tags_None (h : heap) (self memo : addr) (param : tensor_obj)
  (buf : list Z) (mm : gmap key pyval) (proto : pyval) :
  has_tags h self param buf VNone →
  h !! memo = Some (ODict mm) →
  mm !! KInt (py_id self) = None →
  (∃ recipe h' a b,
     nn_Parameter.__reduce_ex__ self proto h = Ok recipe h' ∧
     recipe_args recipe = Some [a; VBool (ob_requires_grad param); b]) ∧
  ∃ r h' copy tg',
    nn_Parameter.__deepcopy__ self memo h = Ok (VRef r) h' ∧
    h' !! r = Some (OTensor copy) ∧
    ob_dict copy !! "tags" = Some (VRef tg') ∧
    h !! tg' = None ∧
    h' !! tg' = Some (ODict ∅) ∧
    getattr self "tags" h' = Ok VNone h'.
Proof.
  intros Hp Hmemo Hk. split.
  - destruct Hp as (Hself & Hbuf & Htags).
    destruct (data_spec h self param Hself) as (d & Hd & Ed).
    destruct (alloc_ok (OOrderedDict [])
                (<[d := OTensor (data_tensor param)]> h))
      as (hooks & Hhooks & Ehooks).
    eexists _, _, (VRef d), (VRef hooks). split.
    { unfold nn_Parameter.__reduce_ex__.
      mstep ltac:(by apply getattr_Ok with (t := param)).
      mstep ltac:(reflexivity). cbv beta iota.
      mstep ltac:(exact Ed).
      mstep ltac:(apply requires_grad_Ok with (t := param); look).
      mstep ltac:(exact Ehooks). reflexivity. }
    reflexivity.
  - destruct (deepcopy_miss_summary h self memo param buf VNone mm Hp Hmemo
                Hk)
      as (r & s & tg' & h' & E & _ & _ & Htg' & _ & _ & _ & Hr' & _ & Hnone &
          _ & Hfr).
    destruct Hp as (Hself & Hbuf & Htags).
    eexists r, h', _, tg'. split; [exact E|]. split; [exact Hr'|].
    split; [apply lookup_singleton_eq|]. split; [done|].
    split; [by apply Hnone|].
    apply getattr_Ok with (t := param); [|done].
    apply Hfr; [fresh_ne|done].
Qed.

Lemma tags_None_witness :
  (∃ recipe h' a b,
     nn_Parameter.__reduce_ex__ 2%positive (VInt 2) Sample2.h_none =
       Ok recipe h' ∧
     recipe_args recipe = Some [a; VBool true; b]) ∧
  ∃ r h' copy tg',
    nn_Parameter.__deepcopy__ 2%positive 3%positive Sample2.h_none =
      Ok (VRef r) h' ∧
    h' !! r = Some (OTensor copy) ∧
    ob_dict copy !! "tags" = Some (VRef tg') ∧
    Sample2.h_none !! tg' = None ∧
    h' !! tg' = Some (ODict ∅) ∧
    getattr 2%positive "tags" h' = Ok VNone h'.
Proof.
  apply (tags_None Sample2.h_none 2%positive 3%positive Sample2.none_tagged
           Sample.weights ∅ (VInt 2)).
  - repeat split; reflexivity.
  - reflexivity.
  - reflexivity.
Defined.
